(** * temporal-hijri: the Hijri calendar bridge of [src/calendars/HijriCalendar.ts]

    A shallow embedding of the class [HijriCalendar] and of the host
    facilities it calls, followed by the properties of the coordinate
    bridge, the field metrics and the date arithmetic.

    Conventions of the embedding.
    - JavaScript numbers hold integers here and are modelled by [Z], which
      is exact as long as they stay below 2^53 in magnitude.  Where the
      size of a number is itself in question, in the normalization loops
      of [dateAdd], the loops are also given on the host's doubles
      ([Double], [fold_months_down_in_doubles]), and compared.
    - A [Temporal.PlainDate] lies between -271821-04-19 and +275760-09-13;
      [date.add] throws where its result would not.
    - A JavaScript call either returns or throws: every method of the
      class returns a [Js.Result].
    - A [Date] is known by the UTC day its time value falls on, and the
      local midnight [new Date(year, monthIndex, day)] is taken to fall on
      the UTC day of that name, as it does with the host in UTC.  What
      rests on this is said so where it is stated ([built_on_its_day]).
    - The conversion engine of hijri-core is an injected value of the
      record [CalendarEngine].
    - A field object is known by its own properties, in the order they
      were created. *)

From Equations Require Import Equations.
From Stdlib Require Import ZArith Lia Bool List String Ascii.
Import ListNotations.

Local Open Scope string_scope.
Local Open Scope Z_scope.

(* ===================================================================== *)
(** ** Completions of a JavaScript call *)
(* ===================================================================== *)

Module Js.

(** The native error classes a calendar plugin can meet. *)
Inductive Error : Type :=
| RangeError (message : string)
| TypeError (message : string).

Inductive Result (A : Type) : Type :=
| Ok (value : A)
| Throw (error : Error).

Arguments Ok {A} value.
Arguments Throw {A} error.

Definition bind {A B : Type} (c : Result A) (k : A -> Result B) : Result B :=
  match c with
  | Ok a => k a
  | Throw e => Throw e
  end.

Definition is_range_error {A : Type} (c : Result A) : bool :=
  match c with
  | Throw (RangeError _) => true
  | _ => false
  end.

(** The decimal digits of [n >= 0], most significant first. *)
Fixpoint digits (fuel : nat) (n : Z) (acc : string) : string :=
  match fuel with
  | O => acc
  | S fuel' =>
      let acc' := String (ascii_of_nat (48 + Z.to_nat (n mod 10))) acc in
      if n / 10 =? 0 then acc' else digits fuel' (n / 10) acc'
  end.

Definition string_of_nonneg (n : Z) : string :=
  digits (S (Z.to_nat (Z.log2 n))) n EmptyString.

(** [String(n)], and [`${n}`], for an integer [n]. *)
Definition String_ (n : Z) : string :=
  if n <? 0 then "-" ++ string_of_nonneg (- n) else string_of_nonneg n.

Fixpoint zeros (k : nat) : string :=
  match k with
  | O => EmptyString
  | S k' => String "0"%char (zeros k')
  end.

(** [s.padStart(width, '0')] *)
Definition padStart0 (width : nat) (s : string) : string :=
  zeros (width - String.length s) ++ s.

End Js.

Notation "x <- c ;; k" := (Js.bind c (fun x => k))
  (at level 61, c at next level, right associativity).

(* ===================================================================== *)
(** ** The numbers of the host *)
(* ===================================================================== *)

(** A JavaScript number is an IEEE 754 double.  Every integer up to 2^53 in
    magnitude is one; above, the doubles are the multiples of a power of
    two that doubles with every binade, and a sum or a difference is the
    double nearest to the exact result, the even one of two that are
    equally near.  Numbers beyond the largest double are left out. *)
Module Double.

(** The distance between neighbouring doubles in the binade of [z]. *)
Definition spacing (z : Z) : Z :=
  let e := Z.log2 (Z.abs z) in
  if e <=? 52 then 1 else 2 ^ (e - 52).

(** The double nearest to the integer [z]. *)
Definition round (z : Z) : Z :=
  let u := spacing z in
  let q := z / u in
  let r := z mod u in
  if 2 * r <? u then q * u
  else if u <? 2 * r then (q + 1) * u
  else if Z.even q then q * u else (q + 1) * u.

(** The integers a number can hold. *)
Definition representable (z : Z) : bool := round z =? z.

(** [x + y] and [x - y] on numbers that hold integers. *)
Definition add (x y : Z) : Z := round (x + y).

Definition sub (x y : Z) : Z := round (x - y).

End Double.

(* ===================================================================== *)
(** ** The ISO calendar of the host: [Date] and [Temporal] *)
(* ===================================================================== *)

(** Day numbers of the proleptic Gregorian calendar, counted from
    1970-01-01.  Both host types rest on them: [MakeDay] of ECMAScript and
    the exact day arithmetic of [Temporal.PlainDate].  The year of the
    computation starts in March, so that the leap day comes last. *)
Module ISO.

Definition days_from_civil (y m d : Z) : Z :=
  let y' := if m <=? 2 then y - 1 else y in
  let era := y' / 400 in
  let yoe := y' - era * 400 in
  let mp := (m + 9) mod 12 in
  let doy := (153 * mp + 2) / 5 + d - 1 in
  let doe := yoe * 365 + yoe / 4 - yoe / 100 + doy in
  era * 146097 + doe - 719468.

Definition civil_from_days (z : Z) : Z * Z * Z :=
  let z' := z + 719468 in
  let era := z' / 146097 in
  let doe := z' - era * 146097 in
  let yoe := (doe - doe / 1460 + doe / 36524 - doe / 146096) / 365 in
  let doy := doe - (365 * yoe + yoe / 4 - yoe / 100) in
  let mp := (5 * doy + 2) / 153 in
  let d := doy - (153 * mp + 2) / 5 + 1 in
  let m := if mp <? 10 then mp + 3 else mp - 9 in
  let y := yoe + era * 400 in
  (if m <=? 2 then y + 1 else y, m, d).

Definition is_leap (y : Z) : bool :=
  (y mod 4 =? 0) && (negb (y mod 100 =? 0) || (y mod 400 =? 0)).

Definition month_length (y m : Z) : Z :=
  if m =? 2 then (if is_leap y then 29 else 28)
  else if (m =? 4) || (m =? 6) || (m =? 9) || (m =? 11) then 30
  else 31.

End ISO.

(** [Date], as far as this package looks at it: the UTC day the time value
    falls on. *)
Module JsDate.

Record t : Type := of_day { utcDay : Z }.

(** [new Date(year, monthIndex, day)].  ECMAScript maps a year from 0 to
    99 to 1900 + year; the month index and the day then go through
    [MakeDay], which carries excess months into the year and excess days
    into the following months. *)
Definition make (year monthIndex day : Z) : t :=
  let yr := if (0 <=? year) && (year <=? 99) then 1900 + year else year in
  let ym := yr + monthIndex / 12 in
  let mn := monthIndex mod 12 in
  of_day (ISO.days_from_civil ym (mn + 1) 1 + day - 1).

Definition getUTCFullYear (j : t) : Z :=
  let '(y, _, _) := ISO.civil_from_days (utcDay j) in y.

Definition getUTCMonth (j : t) : Z :=
  let '(_, m, _) := ISO.civil_from_days (utcDay j) in m - 1.

Definition getUTCDate (j : t) : Z :=
  let '(_, _, d) := ISO.civil_from_days (utcDay j) in d.

End JsDate.

Module Temporal.

(** [Temporal.PlainDate] in the ISO calendar. *)
Record PlainDate : Type := mkPlainDate { year : Z; month : Z; day : Z }.

Definition epochDay (d : PlainDate) : Z :=
  ISO.days_from_civil (year d) (month d) (day d).

(** The day numbers a [Temporal.PlainDate] can hold, from -271821-04-19 to
    +275760-09-13: one day more than the days of [Date] at the lower
    end. *)
Definition minEpochDay : Z := -100000001.

Definition maxEpochDay : Z := 100000000.

Definition in_range (z : Z) : bool := (minEpochDay <=? z) && (z <=? maxEpochDay).

(** The records that are dates: every [Temporal.PlainDate] is one. *)
Definition valid (d : PlainDate) : bool :=
  (1 <=? month d) && (month d <=? 12) &&
  (1 <=? day d) && (day d <=? ISO.month_length (year d) (month d)) &&
  in_range (epochDay d).

Definition ofEpochDay (z : Z) : PlainDate :=
  let '(y, m, d) := ISO.civil_from_days z in mkPlainDate y m d.

(** [Temporal.PlainDate.from({ year, month, day })] on the fields read from
    a [Date], which always form a date of the ISO calendar. *)
Definition from (y m d : Z) : PlainDate := mkPlainDate y m d.

(** The date [n] days after [d] in the proleptic Gregorian calendar. *)
Definition addDays (d : PlainDate) (n : Z) : PlainDate :=
  ofEpochDay (epochDay d + n).

(** [date.add({ days })]: the date [n] days later, and a [RangeError] where
    no [Temporal.PlainDate] can hold it. *)
Definition add (d : PlainDate) (n : Z) : Js.Result PlainDate :=
  if in_range (epochDay d + n) then Js.Ok (addDays d n)
  else Js.Throw (Js.RangeError "date outside of the supported range").

(** [date.dayOfWeek]: 1 is Monday, 7 is Sunday. *)
Definition dayOfWeek (d : PlainDate) : Z :=
  (epochDay d + 3) mod 7 + 1.

(** The year of [date.toString()]: four digits from 0 to 9999, a sign and
    six digits otherwise. *)
Definition yearString (y : Z) : string :=
  if (0 <=? y) && (y <=? 9999) then Js.padStart0 4 (Js.string_of_nonneg y)
  else (if y <? 0 then "-" else "+")
         ++ Js.padStart0 6 (Js.string_of_nonneg (Z.abs y)).

(** [date.toString()] *)
Definition toString (d : PlainDate) : string :=
  yearString (year d) ++ "-" ++ Js.padStart0 2 (Js.String_ (month d))
    ++ "-" ++ Js.padStart0 2 (Js.String_ (day d)).

(** [Temporal.Duration], its date fields. *)
Record Duration : Type :=
  mkDuration { years : Z; months : Z; weeks : Z; days : Z }.

Definition mixed_signs (y m w d : Z) : bool :=
  ((y <? 0) || (m <? 0) || (w <? 0) || (d <? 0)) &&
  ((0 <? y) || (0 <? m) || (0 <? w) || (0 <? d)).

(** [new Temporal.Duration(years, months, weeks, days)].  The constructor
    refuses fields of different signs with a [RangeError]. *)
Definition newDuration (y m w d : Z) : Js.Result Duration :=
  if mixed_signs y m w d
  then Js.Throw (Js.RangeError "mixed-sign values not allowed as duration fields")
  else Js.Ok (mkDuration y m w d).

Definition zeroDuration : Duration := mkDuration 0 0 0 0.

(** [one.until(two, { largestUnit: 'days' })] *)
Definition untilDays (one two : PlainDate) : Duration :=
  mkDuration 0 0 0 (epochDay two - epochDay one).

(** [one.until(two, { largestUnit: 'weeks' })] *)
Definition untilWeeks (one two : PlainDate) : Duration :=
  let n := epochDay two - epochDay one in
  mkDuration 0 0 (Z.quot n 7) (Z.rem n 7).

End Temporal.

(** A plain object, as far as a spread looks at it: its own enumerable
    properties in the order of their creation, one value per name. *)
Module JsObject.

Section Properties.

Variable V : Type.

Definition t : Type := list (string * V).

Definition keys (o : t) : list string := map fst o.

(** [o[k]], [None] standing for a property the object lacks. *)
Fixpoint get (o : t) (k : string) : option V :=
  match o with
  | [] => None
  | (k', v) :: rest => if String.eqb k' k then Some v else get rest k
  end.

(** [o[k] = v]: an existing property keeps its place, a new one comes
    last. *)
Fixpoint set (o : t) (k : string) (v : V) : t :=
  match o with
  | [] => [(k, v)]
  | (k', v') :: rest =>
      if String.eqb k' k then (k', v) :: rest else (k', v') :: set rest k v
  end.

(** The spread [...source] inside an object literal that holds [target] so
    far: each property of [source] is set in turn. *)
Definition spread (target source : t) : t :=
  fold_left (fun acc p => set acc (fst p) (snd p)) source target.

End Properties.

Arguments keys {V} o.
Arguments get {V} o k.
Arguments set {V} o k v.
Arguments spread {V} target source.

End JsObject.

(* ===================================================================== *)
(** ** The conversion engine of hijri-core *)
(* ===================================================================== *)

(** [HijriDate]: the lunar coordinate. *)
Record HijriDate : Type := mkHijri { hy : Z; hm : Z; hd : Z }.

(** [CalendarEngine]: the interface of hijri-core the class is built on.
    [None] stands for the [null] an engine answers outside its domain. *)
Record CalendarEngine : Type := mkEngine {
  engine_id : string;
  engine_toHijri : JsDate.t -> option HijriDate;
  engine_toGregorian : Z -> Z -> Z -> option JsDate.t;
  engine_isValid : Z -> Z -> Z -> bool;
  engine_daysInMonth : Z -> Z -> Z
}.

(* ===================================================================== *)
(** ** The class [HijriCalendar] *)
(* ===================================================================== *)

Inductive DateUnit : Type :=
| unit_year | unit_years | unit_month | unit_months
| unit_week | unit_weeks | unit_day | unit_days | unit_auto.

Inductive Overflow : Type := constrain | reject.

Record OverflowOptions : Type := mkOverflowOptions { overflow : option Overflow }.

Record UntilOptions : Type := mkUntilOptions { largestUnit : option DateUnit }.

(** How many more times a loop that counts [m] upwards to [bound] can run:
    the measure that makes the loops of the class terminate. *)
Definition steps_left (bound m : Z) : nat := Z.to_nat (bound - m).
Arguments steps_left : simpl never.

Module HijriCalendar.

Import Js.

Record t : Type := mk { engine : CalendarEngine; id : string }.

(** [constructor(engine)] *)
Definition new (e : CalendarEngine) : t :=
  {| engine := e; id := "hijri-" ++ engine_id e |}.

Definition toString (this : t) : string := id this.

(** [toHijri(date)] *)
Definition toHijri (this : t) (date : Temporal.PlainDate) : Result HijriDate :=
  let jsDate :=
    JsDate.make (Temporal.year date) (Temporal.month date - 1) (Temporal.day date) in
  match engine_toHijri (engine this) jsDate with
  | None =>
      Throw (RangeError
        ("Date " ++ Temporal.toString date ++ " is out of range for the "
           ++ id this ++ " calendar"))
  | Some hijri => Ok hijri
  end.

(** [fromHijri(hy, hm, hd)] *)
Definition fromHijri (this : t) (hy hm hd : Z) : Result Temporal.PlainDate :=
  match engine_toGregorian (engine this) hy hm hd with
  | None =>
      Throw (RangeError
        ("Hijri date " ++ String_ hy ++ "/" ++ String_ hm ++ "/" ++ String_ hd
           ++ " is out of range for the " ++ id this ++ " calendar"))
  | Some greg =>
      Ok (Temporal.from (JsDate.getUTCFullYear greg)
                        (JsDate.getUTCMonth greg + 1)
                        (JsDate.getUTCDate greg))
  end.

(** *** Field accessors *)

Definition year (this : t) (date : Temporal.PlainDate) : Result Z :=
  h <- toHijri this date ;; Ok (hy h).

Definition month (this : t) (date : Temporal.PlainDate) : Result Z :=
  h <- toHijri this date ;; Ok (hm h).

Definition monthCode (this : t) (date : Temporal.PlainDate) : Result string :=
  h <- toHijri this date ;; Ok ("M" ++ padStart0 2 (String_ (hm h))).

Definition day (this : t) (date : Temporal.PlainDate) : Result Z :=
  h <- toHijri this date ;; Ok (hd h).

(** *** Month and year metrics *)

Definition daysInMonth (this : t) (date : Temporal.PlainDate) : Result Z :=
  h <- toHijri this date ;; Ok (engine_daysInMonth (engine this) (hy h) (hm h)).

(** The loop [for (let m = 1; m <= 12; m++) total += daysInMonth(hy, m)],
    entered at [m] with the running [total]. *)
Equations? daysInYear_loop (e : CalendarEngine) (hy : Z) (m total : Z) : Z
  by wf (steps_left 13 m) lt :=
  daysInYear_loop e hy m total with Z_le_dec m 12 := {
    | left _ => daysInYear_loop e hy (m + 1) (total + engine_daysInMonth e hy m)
    | right _ => total }.
Proof. unfold steps_left; lia. Qed.

Definition daysInYear (this : t) (date : Temporal.PlainDate) : Result Z :=
  h <- toHijri this date ;; Ok (daysInYear_loop (engine this) (hy h) 1 0).

Definition monthsInYear (this : t) (_date : Temporal.PlainDate) : Result Z :=
  Ok 12.

Definition inLeapYear (this : t) (date : Temporal.PlainDate) : Result bool :=
  n <- daysInYear this date ;; Ok (n =? 355).

(** *** Day of week and day of year *)

Definition dayOfWeek (this : t) (date : Temporal.PlainDate) : Result Z :=
  Ok (Temporal.dayOfWeek date).

(** The loop [for (let m = 1; m < hm; m++) total += daysInMonth(hy, m)],
    entered at [m] with the running [total]. *)
Equations? dayOfYear_loop (e : CalendarEngine) (hy hm : Z) (m total : Z) : Z
  by wf (steps_left hm m) lt :=
  dayOfYear_loop e hy hm m total with Z_lt_dec m hm := {
    | left _ => dayOfYear_loop e hy hm (m + 1) (total + engine_daysInMonth e hy m)
    | right _ => total }.
Proof. unfold steps_left; lia. Qed.

Definition dayOfYear (this : t) (date : Temporal.PlainDate) : Result Z :=
  h <- toHijri this date ;;
  Ok (dayOfYear_loop (engine this) (hy h) (hm h) 1 (hd h)).

(** [Math.ceil(n / 7)] for an integer [n]. *)
Definition ceil_div7 (n : Z) : Z := - ((- n) / 7).

Definition weekOfYear (this : t) (date : Temporal.PlainDate) : Result Z :=
  n <- dayOfYear this date ;; Ok (ceil_div7 n).

Definition daysInWeek (this : t) (_date : Temporal.PlainDate) : Result Z :=
  Ok 7.

(** *** Construction from fields *)

Definition dateFromFields (this : t) (fields : HijriDate)
    (_options : option OverflowOptions) : Result Temporal.PlainDate :=
  fromHijri this (hy fields) (hm fields) (hd fields).

(** The ISO year and month of the [Temporal.PlainYearMonth] built. *)
Definition yearMonthFromFields (this : t) (fieldYear fieldMonth : Z)
    (_options : option OverflowOptions) : Result (Z * Z) :=
  isoDate <- fromHijri this fieldYear fieldMonth 1 ;;
  Ok (Temporal.year isoDate, Temporal.month isoDate).

(** The ISO month and day of the [Temporal.PlainMonthDay] built. *)
Definition monthDayFromFields (this : t) (fieldMonth fieldDay : Z)
    (fieldYear : option Z) (_options : option OverflowOptions) : Result (Z * Z) :=
  let year := match fieldYear with Some y => y | None => 1444 end in
  isoDate <- fromHijri this year fieldMonth fieldDay ;;
  Ok (Temporal.month isoDate, Temporal.day isoDate).

(** *** Arithmetic *)

(** [while (newHm > 12) { newHm -= 12; newHy++; }] *)
Equations? fold_months_down (newHy newHm : Z) : Z * Z
  by wf (steps_left newHm 12) lt :=
  fold_months_down newHy newHm with Z_gt_dec newHm 12 := {
    | left _ => fold_months_down (newHy + 1) (newHm - 12)
    | right _ => (newHy, newHm) }.
Proof. unfold steps_left; lia. Qed.

(** [while (newHm < 1) { newHm += 12; newHy--; }] *)
Equations? fold_months_up (newHy newHm : Z) : Z * Z
  by wf (steps_left 1 newHm) lt :=
  fold_months_up newHy newHm with Z_lt_dec newHm 1 := {
    | left _ => fold_months_up (newHy - 1) (newHm + 12)
    | right _ => (newHy, newHm) }.
Proof. unfold steps_left; lia. Qed.

(** The loop [while (newHm > 12) { newHm -= 12; newHy++; }] on the host's
    numbers, for [fuel] rounds at most; [None] when it is still running
    then. *)
Fixpoint fold_months_down_in_doubles (fuel : nat) (newHy newHm : Z)
    : option (Z * Z) :=
  if 12 <? newHm then
    match fuel with
    | O => None
    | S fuel' =>
        fold_months_down_in_doubles fuel' (Double.add newHy 1) (Double.sub newHm 12)
    end
  else Some (newHy, newHm).

(** The loop [while (newHm < 1) { newHm += 12; newHy--; }] on the host's
    numbers. *)
Fixpoint fold_months_up_in_doubles (fuel : nat) (newHy newHm : Z)
    : option (Z * Z) :=
  if newHm <? 1 then
    match fuel with
    | O => None
    | S fuel' =>
        fold_months_up_in_doubles fuel' (Double.sub newHy 1) (Double.add newHm 12)
    end
  else Some (newHy, newHm).

(** Lines 211 to 222 of [dateAdd] on the host's numbers: the two sums and
    the two loops, each loop for [fuel] rounds at most. *)
Definition normalize_in_doubles (fuel : nat) (hy years hm months : Z)
    : option (Z * Z) :=
  let newHy := Double.add hy years in
  let newHm := Double.add hm months in
  match fold_months_down_in_doubles fuel newHy newHm with
  | Some (newHy, newHm) => fold_months_up_in_doubles fuel newHy newHm
  | None => None
  end.

(** [dateAdd(date, duration, _options)] *)
Definition dateAdd (this : t) (date : Temporal.PlainDate)
    (duration : Temporal.Duration) (_options : option OverflowOptions)
    : Result Temporal.PlainDate :=
  h <- toHijri this date ;;
  let newHy := hy h + Temporal.years duration in
  let newHm := hm h + Temporal.months duration in
  let '(newHy, newHm) := fold_months_down newHy newHm in
  let '(newHy, newHm) := fold_months_up newHy newHm in
  let maxDay := engine_daysInMonth (engine this) newHy newHm in
  let clampedDay := Z.min (hd h) maxDay in
  intermediate <- fromHijri this newHy newHm clampedDay ;;
  let dayDelta := Temporal.days duration + Temporal.weeks duration * 7 in
  if negb (dayDelta =? 0) then Temporal.add intermediate dayDelta
  else Ok intermediate.

(** [dateUntil(one, two, options)] *)
Definition dateUntil (this : t) (one two : Temporal.PlainDate)
    (options : option UntilOptions) : Result Temporal.Duration :=
  let largestUnit :=
    match options with
    | Some {| largestUnit := Some u |} => u
    | _ => unit_days
    end in
  match largestUnit with
  | unit_years | unit_year =>
      h1 <- toHijri this one ;;
      h2 <- toHijri this two ;;
      let years := hy h2 - hy h1 in
      let months := hm h2 - hm h1 in
      let days := hd h2 - hd h1 in
      let '(months, days) :=
        if days <? 0 then
          let months := months - 1 in
          let borrowHm := hm h2 - 1 in
          let borrowHy := hy h2 in
          let '(borrowHm, borrowHy) :=
            if borrowHm <? 1 then (12, borrowHy - 1) else (borrowHm, borrowHy) in
          (months, days + engine_daysInMonth (engine this) borrowHy borrowHm)
        else (months, days) in
      let '(years, months) :=
        if months <? 0 then (years - 1, months + 12) else (years, months) in
      Temporal.newDuration years months 0 days
  | unit_months | unit_month =>
      h1 <- toHijri this one ;;
      h2 <- toHijri this two ;;
      let years := hy h2 - hy h1 in
      let months := hm h2 - hm h1 in
      let days := hd h2 - hd h1 in
      let '(months, days) :=
        if days <? 0 then
          let months := months - 1 in
          let borrowHm := hm h2 - 1 in
          let borrowHy := hy h2 in
          let '(borrowHm, borrowHy) :=
            if borrowHm <? 1 then (12, borrowHy - 1) else (borrowHm, borrowHy) in
          (months, days + engine_daysInMonth (engine this) borrowHy borrowHm)
        else (months, days) in
      let '(years, months) :=
        if months <? 0 then (years - 1, months + 12) else (years, months) in
      Temporal.newDuration 0 (years * 12 + months) 0 days
  | unit_weeks | unit_week =>
      Ok (Temporal.untilWeeks one two)
  | _ =>
      Ok (Temporal.untilDays one two)
  end.

(** [mergeFields(fields, additionalFields)]: the object literal
    [{ ...fields, ...additionalFields }]. *)
Definition mergeFields {V : Type} (this : t) (fields additionalFields : JsObject.t V)
    : Result (JsObject.t V) :=
  Ok (JsObject.spread (JsObject.spread [] fields) additionalFields).

End HijriCalendar.

Import Js.
Import HijriCalendar.

(* ===================================================================== *)
(** ** Notions of the specification *)
(* ===================================================================== *)

(** [sum_upto f n] is [f 1 + ... + f n]. *)
Fixpoint sum_upto (f : Z -> Z) (n : nat) : Z :=
  match n with
  | O => 0
  | S k => sum_upto f k + f (Z.of_nat (S k))
  end.

(** The sum of [f m] for [m] from 1 to [n]; empty when [n < 1]. *)
Definition month_sum (f : Z -> Z) (n : Z) : Z := sum_upto f (Z.to_nat n).

(** How many of the months 1 to [n] have 30 days. *)
Definition thirty_day_months (f : Z -> Z) (n : Z) : Z :=
  month_sum (fun m => if f m =? 30 then 1 else 0) n.

(** The month codes of the Temporal proposal for a year of twelve months. *)
Definition month_codes : list string :=
  ["M01"; "M02"; "M03"; "M04"; "M05"; "M06";
   "M07"; "M08"; "M09"; "M10"; "M11"; "M12"].

(** The duration [{ years, months }]. *)
Definition lunar_duration (years months : Z) : Temporal.Duration :=
  Temporal.mkDuration years months 0 0.

(** The two normalization loops of [dateAdd] in the order it runs them. *)
Definition normalize_months (y m : Z) : Z * Z :=
  let '(y1, m1) := fold_months_down y m in fold_months_up y1 m1.

(** The shift [dateAdd] applies in ISO space after the lunar step. *)
Definition apply_day_delta (duration : Temporal.Duration)
    (intermediate : Temporal.PlainDate) : Result Temporal.PlainDate :=
  let dayDelta := Temporal.days duration + Temporal.weeks duration * 7 in
  if negb (dayDelta =? 0) then Temporal.add intermediate dayDelta
  else Ok intermediate.


(** The message of the error [toHijri] throws. *)
Definition toHijri_message (this : t) (date : Temporal.PlainDate) : string :=
  "Date " ++ Temporal.toString date ++ " is out of range for the "
    ++ id this ++ " calendar".

(** The message of the error [fromHijri] throws. *)
Definition fromHijri_message (this : t) (y m d : Z) : string :=
  "Hijri date " ++ String_ y ++ "/" ++ String_ m ++ "/" ++ String_ d
    ++ " is out of range for the " ++ id this ++ " calendar".

(** The engine answers for the very day [date] and inverts itself there:
    [date] is in the domain of the engine. *)
Definition in_domain (e : CalendarEngine) (date : Temporal.PlainDate) : Prop :=
  exists h,
    engine_toHijri e (JsDate.of_day (Temporal.epochDay date)) = Some h
    /\ engine_toGregorian e (hy h) (hm h) (hd h)
       = Some (JsDate.of_day (Temporal.epochDay date)).

(** [fromLunar(toLunar(date))] *)
Definition round_trip (this : t) (date : Temporal.PlainDate)
    : Result Temporal.PlainDate :=
  h <- toHijri this date ;; fromHijri this (hy h) (hm h) (hd h).

(** The years [new Date] reads as years of the twentieth century. *)
Definition two_digit_year (date : Temporal.PlainDate) : Prop :=
  0 <= Temporal.year date <= 99.

(** The [Date] that [toHijri] builds from [date] falls on the UTC day of
    [date].  It does with the host in UTC and a year outside 0 to 99; it
    does not where the local midnight of the host falls on the UTC day
    before. *)
Definition built_on_its_day (date : Temporal.PlainDate) : Prop :=
  JsDate.make (Temporal.year date) (Temporal.month date - 1) (Temporal.day date)
  = JsDate.of_day (Temporal.epochDay date).

(** The [Date] that [toHijri] builds from the UTC fields of [greg], as
    [fromHijri] reads them, falls on the UTC day of [greg]. *)
Definition rebuilt_on_its_day (greg : JsDate.t) : Prop :=
  JsDate.make (JsDate.getUTCFullYear greg) (JsDate.getUTCMonth greg + 1 - 1)
    (JsDate.getUTCDate greg) = greg.

(** The lunar month before month [m] of year [y], month 1 borrowing from
    month 12 of the year before: the borrow of the difference, in the
    words of the specification. *)
Definition preceding_month (y m : Z) : Z * Z :=
  if m =? 1 then (y - 1, 12) else (y, m - 1).

(** The difference between the lunar coordinates [start] and [finish], in
    the words of the specification: component-wise differences, a borrow
    of the month before [finish]'s when days is negative, a borrow of
    twelve months when months is then negative. *)
Definition lunar_difference (e : CalendarEngine) (start finish : HijriDate)
    : Z * Z * Z :=
  let years := hy finish - hy start in
  let months := hm finish - hm start in
  let days := hd finish - hd start in
  let '(months, days) :=
    if days <? 0 then
      let '(borrowYear, borrowMonth) := preceding_month (hy finish) (hm finish) in
      (months - 1, days + engine_daysInMonth e borrowYear borrowMonth)
    else (months, days) in
  let '(years, months) :=
    if months <? 0 then (years - 1, months + 12) else (years, months) in
  (years, months, days).

(** The options [{ largestUnit: unit }]. *)
Definition largest (unit : DateUnit) : option UntilOptions :=
  Some (mkUntilOptions (Some unit)).

(** [start] is not after [finish] in lunar coordinates. *)
Definition not_after (start finish : HijriDate) : Prop :=
  hy start < hy finish
  \/ (hy start = hy finish
      /\ (hm start < hm finish
          \/ (hm start = hm finish /\ hd start <= hd finish))).

(** Month lengths of 29 or 30 days would make every year 354 or 355 days
    long. *)
Definition daysInYear_always_354_or_355 : Prop :=
  forall (this : t) (date : Temporal.PlainDate) (h : HijriDate),
    toHijri this date = Ok h ->
    (forall y m, engine_daysInMonth (engine this) y m = 29
                 \/ engine_daysInMonth (engine this) y m = 30) ->
    exists n, daysInYear this date = Ok n /\ (n = 354 \/ n = 355).


(** Whatever the size of the years and months of the duration, the
    normalization of [dateAdd] would end on the host's numbers, with a
    month from 1 to 12 and the month count kept. *)
Definition normalization_ends_at_any_magnitude : Prop :=
  forall (h : HijriDate) (years months : Z),
    Double.representable (hy h) = true ->
    Double.representable (hm h) = true ->
    Double.representable years = true ->
    Double.representable months = true ->
    exists fuel y' m',
      normalize_in_doubles fuel (hy h) years (hm h) months = Some (y', m')
      /\ 1 <= m' <= 12
      /\ 12 * y' + m' = 12 * (hy h + years) + (hm h + months).


(** For every pair of dates [dateUntil] would return the duration made of
    the components of the lunar difference. *)
Definition dateUntil_always_returns : Prop :=
  forall (this : t) (one two : Temporal.PlainDate) (h1 h2 : HijriDate)
         (years months days : Z),
    toHijri this one = Ok h1 ->
    toHijri this two = Ok h2 ->
    1 <= hm h2 <= 12 ->
    lunar_difference (engine this) h1 h2 = (years, months, days) ->
    dateUntil this one two (largest unit_years)
    = Ok (Temporal.mkDuration years months 0 days)
    /\ dateUntil this one two (largest unit_months)
       = Ok (Temporal.mkDuration 0 (years * 12 + months) 0 days).

(* ===================================================================== *)
(** ** Engines to run the class on *)
(* ===================================================================== *)

(** Stand-ins for the engines of hijri-core, which are not part of this
    package: lunar calendars whose twelve month lengths repeat every year,
    pinned so that 1 Ramadan 1444 falls on 2023-03-23. *)
Module Engines.

Section Uniform.

Variable name : string.
(** The length of month [m], in every year. *)
Variable len : Z -> Z.
(** The lunar years the engine answers for. *)
Variable supported : Z -> bool.

Definition year_length : Z := month_sum len 12.

(** The day number of 1 Muharram of the year 1. *)
Definition anchor : Z :=
  ISO.days_from_civil 2023 3 23 - ((1444 - 1) * year_length + month_sum len 8).

Definition day_number (y m d : Z) : Z :=
  anchor + (y - 1) * year_length + month_sum len (m - 1) + (d - 1).

(** Walk the months from [m] with [r] days left to place. *)
Fixpoint locate (fuel : nat) (m r : Z) : Z * Z :=
  match fuel with
  | O => (m, r + 1)
  | S fuel' =>
      if r <? len m then (m, r + 1) else locate fuel' (m + 1) (r - len m)
  end.

Definition toHijri (j : JsDate.t) : option HijriDate :=
  let k := JsDate.utcDay j - anchor in
  let y := k / year_length + 1 in
  let '(m, d) := locate 11 1 (k mod year_length) in
  if supported y then Some (mkHijri y m d) else None.

Definition isValid (y m d : Z) : bool :=
  supported y && (1 <=? m) && (m <=? 12) && (1 <=? d) && (d <=? len m).

Definition toGregorian (y m d : Z) : option JsDate.t :=
  if isValid y m d then Some (JsDate.of_day (day_number y m d)) else None.

Definition uniform : CalendarEngine :=
  {| engine_id := name;
     engine_toHijri := toHijri;
     engine_toGregorian := toGregorian;
     engine_isValid := isValid;
     engine_daysInMonth := fun _ m => len m |}.

End Uniform.

Definition alternating (m : Z) : Z := if Z.even m then 30 else 29.

(** A computed engine without bounds. *)
Definition computed : CalendarEngine :=
  uniform "computed" alternating (fun _ => true).

(** A table-driven engine: the lunar years 1318 to 1500 only. *)
Definition tabulated : CalendarEngine :=
  uniform "table" alternating (fun y => (1318 <=? y) && (y <=? 1500)).

(** The engine sketched in the README, whose [daysInMonth] returns 29. *)
Definition sighting : CalendarEngine :=
  uniform "local-sighting" (fun _ => 29) (fun _ => true).

End Engines.

(* ===================================================================== *)
(** ** The embedding at work *)
(* ===================================================================== *)

Example iso_epoch : ISO.days_from_civil 1970 1 1 = 0.
Proof. reflexivity. Qed.

Example iso_add_29 :
  Temporal.addDays (Temporal.mkPlainDate 2023 3 23) 29 = Temporal.mkPlainDate 2023 4 21.
Proof. reflexivity. Qed.

Example iso_thursday : Temporal.dayOfWeek (Temporal.mkPlainDate 2023 3 23) = 4.
Proof. reflexivity. Qed.

Example iso_toString : Temporal.toString (Temporal.mkPlainDate 2023 3 23) = "2023-03-23".
Proof. reflexivity. Qed.

Example iso_toString_early : Temporal.toString (Temporal.mkPlainDate 50 1 1) = "0050-01-01".
Proof. reflexivity. Qed.

Example iso_toString_bce :
  Temporal.toString (Temporal.mkPlainDate (-44) 3 15) = "-000044-03-15".
Proof. reflexivity. Qed.

Example date_two_digit_year : JsDate.make 50 0 1 = JsDate.make 1950 0 1.
Proof. reflexivity. Qed.

Example date_overflowing_day :
  JsDate.getUTCMonth (JsDate.make 0 1 29) = 2 /\ JsDate.getUTCDate (JsDate.make 0 1 29) = 1.
Proof. split; reflexivity. Qed.

(** The dates of the test suite, on the table-driven stand-in. *)

Example tabulated_ramadan :
  toHijri (new Engines.tabulated) (Temporal.mkPlainDate 2023 3 23)
  = Ok (mkHijri 1444 9 1).
Proof. reflexivity. Qed.

Example tabulated_from_ramadan :
  dateFromFields (new Engines.tabulated) (mkHijri 1444 9 1) None
  = Ok (Temporal.mkPlainDate 2023 3 23).
Proof. reflexivity. Qed.

Example tabulated_month_code :
  monthCode (new Engines.tabulated) (Temporal.mkPlainDate 2023 3 23) = Ok "M09".
Proof. reflexivity. Qed.

Example tabulated_add_month :
  dateAdd (new Engines.tabulated) (Temporal.mkPlainDate 2023 3 23)
    (Temporal.mkDuration 0 1 0 0) None
  = Ok (Temporal.mkPlainDate 2023 4 21).
Proof. reflexivity. Qed.

Example tabulated_dayOfYear :
  dayOfYear (new Engines.tabulated) (Temporal.mkPlainDate 2023 3 23) = Ok 237.
Proof. reflexivity. Qed.

Example tabulated_out_of_range :
  year (new Engines.tabulated) (Temporal.mkPlainDate 1800 1 1)
  = Throw (RangeError
      "Date 1800-01-01 is out of range for the hijri-table calendar").
Proof. reflexivity. Qed.

Example tabulated_until_months :
  dateUntil (new Engines.tabulated) (Temporal.mkPlainDate 2023 3 23)
    (Temporal.mkPlainDate 2023 4 21) (largest unit_months)
  = Ok (Temporal.mkDuration 0 1 0 0).
Proof. reflexivity. Qed.

Example tabulated_year_length :
  daysInYear (new Engines.tabulated) (Temporal.mkPlainDate 2023 3 23) = Ok 354
  /\ inLeapYear (new Engines.tabulated) (Temporal.mkPlainDate 2023 3 23) = Ok false.
Proof. split; reflexivity. Qed.

(* ===================================================================== *)
(** ** The ISO day numbers *)
(* ===================================================================== *)

(** The year of the era is recovered from the day of the era. *)
Lemma year_of_era_recovered (yoe doy : Z) :
  0 <= yoe <= 399 -> 0 <= doy ->
  (doy <= 364
   \/ (doy = 365 /\ (yoe + 1) mod 4 = 0 /\ ((yoe + 1) mod 100 <> 0 \/ yoe = 399))) ->
  let doe := yoe * 365 + yoe / 4 - yoe / 100 + doy in
  0 <= doe <= 146096
  /\ (doe - doe / 1460 + doe / 36524 - doe / 146096) / 365 = yoe.
Proof.
  intros Hy Hd Hleap doe. subst doe. split.
  - Z.div_mod_to_equations. lia.
  - Z.div_mod_to_equations. lia.
Qed.

(** The month and the day are recovered from the day of the year, which
    starts in March. *)
Lemma month_of_year_recovered (mp d : Z) :
  0 <= mp <= 11 -> 1 <= d <= 31 ->
  (mp = 11 -> d <= 29) ->
  (mp = 1 \/ mp = 3 \/ mp = 6 \/ mp = 8 -> d <= 30) ->
  let doy := (153 * mp + 2) / 5 + d - 1 in
  0 <= doy <= 365
  /\ (5 * doy + 2) / 153 = mp
  /\ doy - (153 * ((5 * doy + 2) / 153) + 2) / 5 + 1 = d.
Proof.
  intros Hmp Hd Hfeb H30 doy. subst doy.
  assert (Hcases : mp = 0 \/ mp = 1 \/ mp = 2 \/ mp = 3 \/ mp = 4 \/ mp = 5
                   \/ mp = 6 \/ mp = 7 \/ mp = 8 \/ mp = 9 \/ mp = 10 \/ mp = 11)
    by lia.
  repeat (destruct Hcases as [-> | Hcases]); try subst mp;
    cbn - [Z.div Z.mul Z.add Z.sub] in *;
    (repeat split; Z.div_mod_to_equations; lia).
Qed.

(** A date of the ISO calendar is read back from its day number. *)
Lemma civil_round_trip (y m d : Z) :
  1 <= m <= 12 -> 1 <= d <= ISO.month_length y m ->
  ISO.civil_from_days (ISO.days_from_civil y m d) = (y, m, d).
Proof.
  intros Hm Hd.
  unfold ISO.days_from_civil, ISO.civil_from_days.
  set (y' := if m <=? 2 then y - 1 else y).
  set (era := y' / 400).
  set (yoe := y' - era * 400).
  set (mp := (m + 9) mod 12).
  set (doy := (153 * mp + 2) / 5 + d - 1).
  set (doe := yoe * 365 + yoe / 4 - yoe / 100 + doy).
  assert (Hyoe : 0 <= yoe <= 399) by (subst yoe era; Z.div_mod_to_equations; lia).
  assert (Hshape :
            (m <= 2 /\ y' = y - 1 /\ mp = m + 9) \/ (3 <= m /\ y' = y /\ mp = m - 3)).
  { subst y' mp. destruct (Z.leb_spec m 2); [left | right];
      (repeat split; try lia; Z.div_mod_to_equations; lia). }
  assert (Hlen : 1 <= d <= 31 /\ (mp = 11 -> d <= 29)
                 /\ (mp = 1 \/ mp = 3 \/ mp = 6 \/ mp = 8 -> d <= 30)
                 /\ (d = 29 -> mp = 11 ->
                       (yoe + 1) mod 4 = 0 /\ ((yoe + 1) mod 100 <> 0 \/ yoe = 399))).
  { unfold ISO.month_length, ISO.is_leap in Hd.
    destruct (Z.eqb_spec m 2) as [E2|N2].
    - assert (Hy : y = yoe + 1 + era * 400) by (subst yoe; lia).
      destruct (Z.eqb_spec (y mod 4) 0) as [E4|N4];
        destruct (Z.eqb_spec (y mod 100) 0) as [E100|N100];
        destruct (Z.eqb_spec (y mod 400) 0) as [E400|N400];
        cbn in Hd; (repeat split; try lia; intros; Z.div_mod_to_equations; lia).
    - destruct (Z.eqb_spec m 4); destruct (Z.eqb_spec m 6);
        destruct (Z.eqb_spec m 9); destruct (Z.eqb_spec m 11);
        cbn in Hd; (repeat split; try lia; intros; lia). }
  destruct Hlen as (Hd31 & Hfeb & H30 & Hleap).
  destruct (month_of_year_recovered mp d ltac:(lia) Hd31 Hfeb H30)
    as (Hdoy & Hmonth & Hday).
  fold doy in Hdoy, Hmonth, Hday.
  destruct (year_of_era_recovered yoe doy Hyoe ltac:(lia)) as (Hdoe & Hyear).
  { destruct (Z_le_dec doy 364) as [|Hbig]; [left; assumption | right].
    assert (doy = 365) by lia.
    assert (mp = 11 /\ d = 29) by (subst doy; Z.div_mod_to_equations; lia).
    split; [assumption |]. apply Hleap; lia. }
  fold doe in Hdoe, Hyear.
  replace (era * 146097 + doe - 719468 + 719468) with (doe + era * 146097) by lia.
  rewrite Z.div_add by lia. rewrite (Z.div_small doe 146097) by lia.
  replace (doe + era * 146097 - (0 + era) * 146097) with doe by lia.
  cbv zeta. rewrite Hyear.
  replace (doe - (365 * yoe + yoe / 4 - yoe / 100)) with doy by (subst doe; lia).
  rewrite Hday. rewrite Hmonth.
  destruct Hshape as [(Hlow & Hy' & Hmp') | (Hhigh & Hy' & Hmp')].
  - destruct (Z.ltb_spec mp 10); [lia |].
    destruct (Z.leb_spec (mp - 9) 2); [| lia].
    replace (yoe + (0 + era) * 400 + 1) with y by (subst yoe; lia).
    replace (mp - 9) with m by lia. reflexivity.
  - destruct (Z.ltb_spec mp 10); [| lia].
    destruct (Z.leb_spec (mp + 3) 2); [lia |].
    replace (yoe + (0 + era) * 400) with y by (subst yoe; lia).
    replace (mp + 3) with m by lia. reflexivity.
Qed.

Lemma valid_fields (date : Temporal.PlainDate) :
  Temporal.valid date = true ->
  1 <= Temporal.month date <= 12
  /\ 1 <= Temporal.day date
          <= ISO.month_length (Temporal.year date) (Temporal.month date).
Proof.
  unfold Temporal.valid. intros Hv.
  repeat (apply andb_true_iff in Hv; destruct Hv as [Hv ?]).
  repeat match goal with
         | H : (_ <=? _) = true |- _ => apply Z.leb_le in H
         end.
  lia.
Qed.

Lemma valid_in_range (date : Temporal.PlainDate) :
  Temporal.valid date = true -> Temporal.in_range (Temporal.epochDay date) = true.
Proof.
  unfold Temporal.valid. intros Hv. now apply andb_true_iff in Hv.
Qed.

Example plain_date_limits :
  Temporal.ofEpochDay Temporal.minEpochDay = Temporal.mkPlainDate (-271821) 4 19
  /\ Temporal.ofEpochDay Temporal.maxEpochDay = Temporal.mkPlainDate 275760 9 13
  /\ Temporal.valid (Temporal.mkPlainDate (-271821) 4 19) = true
  /\ Temporal.valid (Temporal.mkPlainDate (-271821) 4 18) = false
  /\ Temporal.valid (Temporal.mkPlainDate 275760 9 13) = true
  /\ Temporal.valid (Temporal.mkPlainDate 275760 9 14) = false.
Proof. repeat split. Qed.

(** Outside the years 0 to 99, [new Date(year, month - 1, day)] is the day
    of the date it is built from. *)
Lemma date_of_plain_date (date : Temporal.PlainDate) :
  Temporal.valid date = true ->
  ~ two_digit_year date ->
  JsDate.make (Temporal.year date) (Temporal.month date - 1) (Temporal.day date)
  = JsDate.of_day (Temporal.epochDay date).
Proof.
  intros Hv Hyear. apply valid_fields in Hv. destruct Hv as [Hm Hd].
  unfold two_digit_year in Hyear.
  unfold JsDate.make, Temporal.epochDay.
  replace ((0 <=? Temporal.year date) && (Temporal.year date <=? 99)) with false
    by (symmetry; apply andb_false_iff;
        destruct (Z.leb_spec 0 (Temporal.year date));
        destruct (Z.leb_spec (Temporal.year date) 99); auto; lia).
  cbv zeta.
  rewrite (Z.div_small (Temporal.month date - 1) 12) by lia.
  rewrite (Z.mod_small (Temporal.month date - 1) 12) by lia.
  replace (Temporal.year date + 0) with (Temporal.year date) by lia.
  replace (Temporal.month date - 1 + 1) with (Temporal.month date) by lia.
  f_equal. unfold ISO.days_from_civil. lia.
Qed.

(** The UTC fields of the day of a date are the fields of the date. *)
Lemma plain_date_of_date (date : Temporal.PlainDate) :
  Temporal.valid date = true ->
  let greg := JsDate.of_day (Temporal.epochDay date) in
  Temporal.from (JsDate.getUTCFullYear greg) (JsDate.getUTCMonth greg + 1)
    (JsDate.getUTCDate greg) = date.
Proof.
  intros Hv greg. apply valid_fields in Hv. destruct Hv as [Hm Hd].
  unfold JsDate.getUTCFullYear, JsDate.getUTCMonth, JsDate.getUTCDate, greg.
  cbn [JsDate.utcDay]. unfold Temporal.epochDay.
  rewrite civil_round_trip by assumption.
  destruct date as [y m d]. cbn. unfold Temporal.from. f_equal. lia.
Qed.

(* ===================================================================== *)
(** ** The coordinate bridge *)
(* ===================================================================== *)

(** A year from 0 to 99 and the year 1900 later build the same [Date]. *)
Lemma date_of_two_digit_year (y monthIndex d : Z) :
  0 <= y <= 99 ->
  JsDate.make y monthIndex d = JsDate.make (1900 + y) monthIndex d.
Proof.
  intros Hy. unfold JsDate.make.
  destruct (Z.leb_spec 0 y); [| lia].
  destruct (Z.leb_spec y 99); [| lia].
  destruct (Z.leb_spec 0 (1900 + y)); [| lia].
  destruct (Z.leb_spec (1900 + y) 99); [lia |].
  reflexivity.
Qed.

(** Outside the years 0 to 99 the bridge returns every date of the
    engine's domain from its lunar coordinate. *)
Lemma round_trip_outside_two_digit_years (this : t) (date : Temporal.PlainDate) :
  Temporal.valid date = true ->
  ~ two_digit_year date ->
  in_domain (engine this) date ->
  round_trip this date = Ok date.
Proof.
  intros Hv Hyear (h & Hto & Hfrom).
  unfold round_trip, toHijri.
  rewrite (date_of_plain_date date Hv Hyear), Hto. cbn [bind].
  unfold fromHijri. rewrite Hfrom.
  now rewrite (plain_date_of_date date Hv).
Qed.

(** There, no two dates of the domain share a lunar coordinate. *)
Lemma toHijri_injective_outside_two_digit_years (this : t)
    (one two : Temporal.PlainDate) :
  Temporal.valid one = true -> Temporal.valid two = true ->
  ~ two_digit_year one -> ~ two_digit_year two ->
  in_domain (engine this) one -> in_domain (engine this) two ->
  toHijri this one = toHijri this two ->
  one = two.
Proof.
  intros Hv1 Hv2 Hy1 Hy2 Hd1 Hd2 Heq.
  pose proof (round_trip_outside_two_digit_years this one Hv1 Hy1 Hd1) as R1.
  pose proof (round_trip_outside_two_digit_years this two Hv2 Hy2 Hd2) as R2.
  unfold round_trip in R1, R2. rewrite Heq in R1. rewrite R1 in R2.
  now injection R2.
Qed.

Example round_trip_ramadan :
  round_trip (new Engines.tabulated) (Temporal.mkPlainDate 2023 3 23)
  = Ok (Temporal.mkPlainDate 2023 3 23).
Proof. reflexivity. Qed.

(** C1. The round trip on the date 0050-01-01, which a computed engine
    without bounds holds in its domain: [new Date(50, 0, 1)] is the first
    of January 1950, so the bridge answers with the lunar coordinate of
    1950-01-01 and converts it back to 1950-01-01, not to the date, and the
    two dates, both in the domain, share one lunar coordinate. *)
Theorem round_trip_of_a_two_digit_year :
  let this := new Engines.computed in
  let date := Temporal.mkPlainDate 50 1 1 in
  Temporal.valid date = true
  /\ in_domain Engines.computed date
  /\ engine_toHijri Engines.computed (JsDate.of_day (Temporal.epochDay date))
     = Some (mkHijri (-592) 10 12)
  /\ toHijri this date = Ok (mkHijri 1369 2 14)
  /\ round_trip this date = Ok (Temporal.mkPlainDate 1950 1 1)
  /\ round_trip this date <> Ok date
  /\ toHijri this date = toHijri this (Temporal.mkPlainDate 1950 1 1)
  /\ in_domain Engines.computed (Temporal.mkPlainDate 1950 1 1).
Proof.
  cbv zeta. repeat split.
  - exists (mkHijri (-592) 10 12). split; reflexivity.
  - intros Heq. discriminate Heq.
  - exists (mkHijri 1369 2 14). split; reflexivity.
Qed.





(** The identity in those messages is built from the engine's. *)
Lemma calendar_identity (e : CalendarEngine) :
  id (new e) = "hijri-" ++ engine_id e /\ HijriCalendar.toString (new e) = id (new e).
Proof. split; reflexivity. Qed.

Example fromHijri_out_of_range :
  fromHijri (new Engines.tabulated) 1501 1 29
  = Throw (RangeError
      "Hijri date 1501/1/29 is out of range for the hijri-table calendar").
Proof. reflexivity. Qed.

(* ===================================================================== *)
(** ** Field metrics *)
(* ===================================================================== *)

Section Sums.

Variable f : Z -> Z.

Lemma month_sum_step (n : Z) :
  0 <= n -> month_sum f (n + 1) = month_sum f n + f (n + 1).
Proof.
  intros Hn. unfold month_sum.
  replace (Z.to_nat (n + 1)) with (S (Z.to_nat n)) by lia.
  cbn [sum_upto]. f_equal. f_equal. lia.
Qed.

Lemma month_sum_nonpos (n : Z) : n <= 0 -> month_sum f n = 0.
Proof.
  intros Hn. unfold month_sum.
  replace (Z.to_nat n) with O by lia. reflexivity.
Qed.

Lemma month_sum_twelve :
  month_sum f 12
  = f 1 + f 2 + f 3 + f 4 + f 5 + f 6 + f 7 + f 8 + f 9 + f 10 + f 11 + f 12.
Proof.
  unfold month_sum. change (Z.to_nat 12) with 12%nat.
  cbn [sum_upto Z.of_nat Pos.of_succ_nat Pos.succ]. lia.
Qed.

(** Bounds on a sum of bounded terms. *)
Lemma sum_upto_bounds (lo hi : Z) (n : nat) :
  (forall m, 1 <= m <= Z.of_nat n -> lo <= f m <= hi) ->
  lo * Z.of_nat n <= sum_upto f n <= hi * Z.of_nat n.
Proof.
  induction n as [|k IH]; intros Hf.
  - cbn. lia.
  - cbn [sum_upto].
    assert (Hk : lo <= f (Z.of_nat (S k)) <= hi) by (apply Hf; lia).
    assert (IH' : lo * Z.of_nat k <= sum_upto f k <= hi * Z.of_nat k)
      by (apply IH; intros m Hm; apply Hf; lia).
    lia.
Qed.

(** A sum of non-negative terms grows with its upper index. *)
Lemma sum_upto_monotone (n k : nat) :
  (forall m, 1 <= m <= Z.of_nat (n + k) -> 0 <= f m) ->
  sum_upto f n <= sum_upto f (n + k).
Proof.
  induction k as [|k IH]; intros Hf.
  - rewrite Nat.add_0_r. lia.
  - replace (n + S k)%nat with (S (n + k)) by lia. cbn [sum_upto].
    assert (0 <= f (Z.of_nat (S (n + k)))) by (apply Hf; lia).
    assert (sum_upto f n <= sum_upto f (n + k))
      by (apply IH; intros m Hm; apply Hf; lia).
    lia.
Qed.

End Sums.

(** The loop of [dayOfYear], entered at [m >= 1], adds to [total] the
    lengths of the months from [m] to [hm - 1]. *)
Lemma dayOfYear_loop_sum (e : CalendarEngine) (y hm m total : Z) :
  1 <= m ->
  dayOfYear_loop e y hm m total
  = total + (month_sum (engine_daysInMonth e y) (Z.max (hm - 1) (m - 1))
             - month_sum (engine_daysInMonth e y) (m - 1)).
Proof.
  funelim (dayOfYear_loop e y hm m total); intros Hm.
  - match goal with IH : 1 <= _ -> dayOfYear_loop _ _ _ _ _ = _ |- _ =>
      rewrite IH by lia end.
    rewrite !Z.max_l by lia.
    replace (m + 1 - 1) with (m - 1 + 1) by lia.
    rewrite month_sum_step by lia.
    replace (m - 1 + 1) with m by lia. lia.
  - rewrite Z.max_r by lia. lia.
Qed.

(** The loop of [daysInYear], entered at [m >= 1], adds to [total] the
    lengths of the months from [m] to 12. *)
Lemma daysInYear_loop_sum (e : CalendarEngine) (y m total : Z) :
  1 <= m ->
  daysInYear_loop e y m total
  = total + (month_sum (engine_daysInMonth e y) (Z.max 12 (m - 1))
             - month_sum (engine_daysInMonth e y) (m - 1)).
Proof.
  funelim (daysInYear_loop e y m total); intros Hm.
  - match goal with IH : 1 <= _ -> daysInYear_loop _ _ _ _ = _ |- _ =>
      rewrite IH by lia end.
    rewrite !Z.max_l by lia.
    replace (m + 1 - 1) with (m - 1 + 1) by lia.
    rewrite month_sum_step by lia.
    replace (m - 1 + 1) with m by lia. lia.
  - rewrite Z.max_r by lia. lia.
Qed.

Lemma daysInYear_loop_total (e : CalendarEngine) (y : Z) :
  daysInYear_loop e y 1 0 = month_sum (engine_daysInMonth e y) 12.
Proof.
  rewrite daysInYear_loop_sum by lia.
  rewrite Z.max_l by lia.
  change (month_sum (engine_daysInMonth e y) (1 - 1)) with 0. lia.
Qed.

Lemma dayOfYear_loop_total (e : CalendarEngine) (y mo d : Z) :
  dayOfYear_loop e y mo 1 d = month_sum (engine_daysInMonth e y) (mo - 1) + d.
Proof.
  rewrite dayOfYear_loop_sum by lia.
  change (month_sum (engine_daysInMonth e y) (1 - 1)) with 0.
  destruct (Z_le_dec (mo - 1) 0) as [Hle|Hgt].
  - rewrite Z.max_r by lia.
    rewrite (month_sum_nonpos _ (mo - 1)) by lia.
    change (month_sum (engine_daysInMonth e y) (1 - 1)) with 0. lia.
  - rewrite Z.max_l by lia. lia.
Qed.

Lemma daysInYear_value (this : t) (date : Temporal.PlainDate) (h : HijriDate) :
  toHijri this date = Ok h ->
  daysInYear this date = Ok (month_sum (engine_daysInMonth (engine this) (hy h)) 12).
Proof.
  intros Hh. unfold daysInYear. rewrite Hh. cbn [bind].
  now rewrite daysInYear_loop_total.
Qed.

Lemma dayOfYear_value (this : t) (date : Temporal.PlainDate) (h : HijriDate) :
  toHijri this date = Ok h ->
  dayOfYear this date
  = Ok (month_sum (engine_daysInMonth (engine this) (hy h)) (hm h - 1) + hd h).
Proof.
  intros Hh. unfold dayOfYear. rewrite Hh. cbn [bind].
  now rewrite dayOfYear_loop_total.
Qed.

Lemma month_sum_bounds (f : Z -> Z) (lo hi n : Z) :
  0 <= n ->
  (forall m, 1 <= m <= n -> lo <= f m <= hi) ->
  lo * n <= month_sum f n <= hi * n.
Proof.
  intros Hn Hf. unfold month_sum.
  pose proof (sum_upto_bounds f lo hi (Z.to_nat n)) as B.
  rewrite Z2Nat.id in B by assumption. now apply B.
Qed.

Lemma month_sum_monotone (f : Z -> Z) (n k : Z) :
  0 <= n <= k ->
  (forall m, 1 <= m <= k -> 0 <= f m) ->
  month_sum f n <= month_sum f k.
Proof.
  intros Hnk Hf. unfold month_sum.
  replace (Z.to_nat k) with (Z.to_nat n + Z.to_nat (k - n))%nat by lia.
  apply sum_upto_monotone. intros m Hm. apply Hf. lia.
Qed.

(** With the engine of the README, whose months all have 29 days, the
    year of 2023-03-23 has 348 days. *)
Lemma daysInYear_348_on_29_day_months : ~ daysInYear_always_354_or_355.
Proof.
  intros Hall.
  destruct (Hall (new Engines.sighting) (Temporal.mkPlainDate 2023 3 23)
              (mkHijri 1444 9 1)) as (n & Hn & Hrange).
  - reflexivity.
  - intros y m. left. reflexivity.
  - assert (Hrun : daysInYear (new Engines.sighting) (Temporal.mkPlainDate 2023 3 23)
                   = Ok 348) by reflexivity.
    rewrite Hrun in Hn. injection Hn as <-. lia.
Qed.

(** A sum of lengths of 29 or 30 days counts 29 days a month and one
    more for each month of 30 days. *)
Lemma sum_upto_29_or_30 (f : Z -> Z) (n : nat) :
  (forall m, 1 <= m <= Z.of_nat n -> f m = 29 \/ f m = 30) ->
  sum_upto f n
  = 29 * Z.of_nat n + sum_upto (fun m => if f m =? 30 then 1 else 0) n.
Proof.
  induction n as [|k IH]; intros Hf.
  - reflexivity.
  - cbn [sum_upto]. cbn beta. rewrite IH by (intros m Hm; apply Hf; lia).
    destruct (Hf (Z.of_nat (S k)) ltac:(lia)) as [E | E]; rewrite E;
      [change (29 =? 30) with false | change (30 =? 30) with true];
      cbv iota; lia.
Qed.

(** C5, amended. daysInYear is the sum of the engine's month lengths over
    the months 1 to 12 of the lunar year of the date; when each of these
    lengths is 29 or 30 the sum is 348 plus the number of months of 30
    days, between 348 and 360, hence 354 or 355 exactly when six or seven
    months have 30 days; inLeapYear is true exactly when daysInYear is
    355. *)
Theorem daysInYear_is_month_sum (this : t) (date : Temporal.PlainDate)
    (h : HijriDate) :
  toHijri this date = Ok h ->
  (forall m, 1 <= m <= 12 ->
     engine_daysInMonth (engine this) (hy h) m = 29
     \/ engine_daysInMonth (engine this) (hy h) m = 30) ->
  exists n,
    daysInYear this date = Ok n
    /\ n = month_sum (engine_daysInMonth (engine this) (hy h)) 12
    /\ n = 348 + thirty_day_months (engine_daysInMonth (engine this) (hy h)) 12
    /\ 348 <= n <= 360
    /\ inLeapYear this date = Ok (n =? 355).
Proof.
  intros Hh Hlen.
  set (f := engine_daysInMonth (engine this) (hy h)) in *.
  exists (month_sum f 12).
  pose proof (daysInYear_value this date h Hh) as Hyear. fold f in Hyear.
  assert (Hbounds : 29 * 12 <= month_sum f 12 <= 30 * 12).
  { apply month_sum_bounds; [lia |]. intros m Hm. destruct (Hlen m Hm); lia. }
  assert (Hcount : month_sum f 12 = 348 + thirty_day_months f 12).
  { unfold thirty_day_months, month_sum.
    rewrite sum_upto_29_or_30 by (intros m Hm; apply Hlen; lia). lia. }
  split; [exact Hyear |]. split; [reflexivity |]. split; [exact Hcount |].
  split; [lia |].
  unfold inLeapYear. rewrite Hyear. reflexivity.
Qed.

Lemma alternating_29_or_30 (m : Z) :
  Engines.alternating m = 29 \/ Engines.alternating m = 30.
Proof. unfold Engines.alternating. destruct (Z.even m); [right | left]; reflexivity. Qed.

Lemma daysInYear_is_month_sum_witness :
  toHijri (new Engines.tabulated) (Temporal.mkPlainDate 2023 3 23)
  = Ok (mkHijri 1444 9 1)
  /\ (forall m, 1 <= m <= 12 ->
        engine_daysInMonth Engines.tabulated 1444 m = 29
        \/ engine_daysInMonth Engines.tabulated 1444 m = 30)
  /\ exists n,
       daysInYear (new Engines.tabulated) (Temporal.mkPlainDate 2023 3 23) = Ok n
       /\ n = month_sum (engine_daysInMonth Engines.tabulated 1444) 12
       /\ n = 348 + thirty_day_months (engine_daysInMonth Engines.tabulated 1444) 12
       /\ 348 <= n <= 360
       /\ inLeapYear (new Engines.tabulated) (Temporal.mkPlainDate 2023 3 23)
          = Ok (n =? 355).
Proof.
  split; [reflexivity | split].
  - intros m _. apply alternating_29_or_30.
  - apply (daysInYear_is_month_sum (new Engines.tabulated)
             (Temporal.mkPlainDate 2023 3 23) (mkHijri 1444 9 1)).
    + reflexivity.
    + intros m _. apply alternating_29_or_30.
Defined.

(** C6. For a date whose lunar coordinate has its month in 1..12 and its
    day between 1 and the length of that month, dayOfYear is the sum of
    the lengths of the months before the lunar month plus the lunar day,
    and lies between 1 and daysInYear. *)
Theorem dayOfYear_is_prefix_sum (this : t) (date : Temporal.PlainDate)
    (h : HijriDate) :
  toHijri this date = Ok h ->
  1 <= hm h <= 12 ->
  (forall m, 1 <= m <= 12 ->
     engine_daysInMonth (engine this) (hy h) m = 29
     \/ engine_daysInMonth (engine this) (hy h) m = 30) ->
  1 <= hd h <= engine_daysInMonth (engine this) (hy h) (hm h) ->
  exists n total,
    dayOfYear this date = Ok n
    /\ n = month_sum (engine_daysInMonth (engine this) (hy h)) (hm h - 1) + hd h
    /\ daysInYear this date = Ok total
    /\ 1 <= n <= total.
Proof.
  intros Hh Hmonth Hlen Hday.
  set (f := engine_daysInMonth (engine this) (hy h)) in *.
  exists (month_sum f (hm h - 1) + hd h), (month_sum f 12).
  assert (Hpos : forall m, 1 <= m <= 12 -> 0 <= f m)
    by (intros m Hm; destruct (Hlen m Hm); lia).
  assert (Hbefore : 0 <= month_sum f (hm h - 1)).
  { pose proof (month_sum_bounds f 0 30 (hm h - 1)) as B.
    assert (0 * (hm h - 1) <= month_sum f (hm h - 1) <= 30 * (hm h - 1))
      by (apply B; [lia | intros m Hm; destruct (Hlen m ltac:(lia)); lia]).
    lia. }
  assert (Hupto : month_sum f (hm h) <= month_sum f 12).
  { apply month_sum_monotone; [lia | assumption]. }
  assert (Hstep : month_sum f (hm h) = month_sum f (hm h - 1) + f (hm h)).
  { replace (hm h) with (hm h - 1 + 1) at 1 by lia.
    rewrite month_sum_step by lia. now replace (hm h - 1 + 1) with (hm h) by lia. }
  repeat split.
  - now apply dayOfYear_value.
  - now apply daysInYear_value.
  - lia.
  - lia.
Qed.

Lemma dayOfYear_is_prefix_sum_witness :
  toHijri (new Engines.tabulated) (Temporal.mkPlainDate 2023 3 23)
  = Ok (mkHijri 1444 9 1)
  /\ 1 <= 9 <= 12
  /\ 1 <= 1 <= engine_daysInMonth Engines.tabulated 1444 9
  /\ exists n total,
       dayOfYear (new Engines.tabulated) (Temporal.mkPlainDate 2023 3 23) = Ok n
       /\ n = month_sum (engine_daysInMonth Engines.tabulated 1444) (9 - 1) + 1
       /\ daysInYear (new Engines.tabulated) (Temporal.mkPlainDate 2023 3 23)
          = Ok total
       /\ 1 <= n <= total.
Proof.
  split; [reflexivity | split; [lia | split; [cbn; lia |]]].
  apply (dayOfYear_is_prefix_sum (new Engines.tabulated)
           (Temporal.mkPlainDate 2023 3 23) (mkHijri 1444 9 1)).
  - reflexivity.
  - cbn; lia.
  - intros m _. apply alternating_29_or_30.
  - cbn; lia.
Defined.

(** C10. dayOfWeek, monthsInYear and daysInWeek do not consult the engine:
    on every date, inside the engine's domain or not, they return the ISO
    weekday of the date, 12 and 7, and never an error. *)
Theorem weekday_and_constants_need_no_engine (this : t) (date : Temporal.PlainDate) :
  dayOfWeek this date = Ok (Temporal.dayOfWeek date)
  /\ monthsInYear this date = Ok 12
  /\ daysInWeek this date = Ok 7.
Proof. repeat split. Qed.

(** Where the lunar accessors fail, the three still answer. *)
Example outside_the_table :
  let this := new Engines.tabulated in
  let date := Temporal.mkPlainDate 1800 1 1 in
  is_range_error (year this date) = true
  /\ is_range_error (month this date) = true
  /\ is_range_error (day this date) = true
  /\ is_range_error (daysInYear this date) = true
  /\ dayOfWeek this date = Ok 3
  /\ monthsInYear this date = Ok 12
  /\ daysInWeek this date = Ok 7.
Proof. repeat split. Qed.

Lemma iso_weekday_range (date : Temporal.PlainDate) :
  1 <= Temporal.dayOfWeek date <= 7.
Proof.
  unfold Temporal.dayOfWeek.
  pose proof (Z.mod_pos_bound (Temporal.epochDay date + 3) 7). lia.
Qed.


(* ===================================================================== *)
(** ** Addition *)
(* ===================================================================== *)

Lemma fold_months_down_spec (y m : Z) :
  forall y' m', fold_months_down y m = (y', m') ->
  m' <= 12 /\ (m <= 12 -> y' = y /\ m' = m) /\ (12 < m -> 1 <= m')
  /\ 12 * y' + m' = 12 * y + m.
Proof.
  funelim (fold_months_down y m); intros y' m' Hres.
  - match goal with
    | IH : forall _ _, fold_months_down _ _ = _ -> _ |- _ =>
        specialize (IH y' m' Hres)
    end.
    lia.
  - injection Hres as <- <-. lia.
Qed.

Lemma fold_months_up_spec (y m : Z) :
  forall y' m', fold_months_up y m = (y', m') ->
  1 <= m' /\ (1 <= m -> y' = y /\ m' = m) /\ (m < 1 -> m' <= 12)
  /\ 12 * y' + m' = 12 * y + m.
Proof.
  funelim (fold_months_up y m); intros y' m' Hres.
  - match goal with
    | IH : forall _ _, fold_months_up _ _ = _ -> _ |- _ =>
        specialize (IH y' m' Hres)
    end.
    lia.
  - injection Hres as <- <-. lia.
Qed.

Lemma normalize_months_spec (y m y' m' : Z) :
  normalize_months y m = (y', m') ->
  1 <= m' <= 12 /\ 12 * y' + m' = 12 * y + m.
Proof.
  unfold normalize_months.
  destruct (fold_months_down y m) as [y1 m1] eqn:Hdown.
  intros Hup.
  pose proof (fold_months_down_spec _ _ _ _ Hdown) as D.
  pose proof (fold_months_up_spec _ _ _ _ Hup) as U.
  lia.
Qed.

(** The loops compute the quotient and remainder of the month count. *)
Lemma normalize_months_closed_form (y m : Z) :
  normalize_months y m = (y + (m - 1) / 12, (m - 1) mod 12 + 1).
Proof.
  destruct (normalize_months y m) as [y' m'] eqn:Hn.
  apply normalize_months_spec in Hn. destruct Hn as [Hm Hsum].
  assert (Hq : (m - 1) / 12 = y' - y).
  { symmetry. apply (Z.div_unique_pos (m - 1) 12 (y' - y) (m' - 1)); lia. }
  assert (Hr : (m - 1) mod 12 = m' - 1).
  { symmetry. apply (Z.mod_unique_pos (m - 1) 12 (y' - y) (m' - 1)); lia. }
  rewrite Hq, Hr. f_equal; lia.
Qed.

(** How [dateAdd] runs once the origin has its lunar coordinate. *)
Lemma dateAdd_unfold (this : t) (date : Temporal.PlainDate)
    (duration : Temporal.Duration) (options : option OverflowOptions)
    (h : HijriDate) (y' m' : Z) :
  toHijri this date = Ok h ->
  normalize_months (hy h + Temporal.years duration)
                   (hm h + Temporal.months duration) = (y', m') ->
  dateAdd this date duration options
  = (intermediate <-
       fromHijri this y' m' (Z.min (hd h) (engine_daysInMonth (engine this) y' m')) ;;
     apply_day_delta duration intermediate).
Proof.
  intros Hh Hn. unfold dateAdd. rewrite Hh. cbn [bind].
  unfold normalize_months in Hn.
  destruct (fold_months_down _ _) as [y1 m1].
  rewrite Hn. reflexivity.
Qed.

(** On the integers the month count of the origin plus the duration lands
    in a month between 1 and 12 whatever the size of the duration. *)
Lemma normalize_months_total (y m : Z) :
  exists y' m', normalize_months y m = (y', m')
                /\ 1 <= m' <= 12 /\ 12 * y' + m' = 12 * y + m.
Proof.
  destruct (normalize_months y m) as [y' m'] eqn:Hn.
  exists y', m'. split; [reflexivity|]. now apply normalize_months_spec.
Qed.

Example normalize_forward : normalize_months 1444 (9 + 27) = (1446, 12).
Proof. reflexivity. Qed.

Example normalize_backward : normalize_months 1444 (9 - 33) = (1441, 12).
Proof. reflexivity. Qed.

(** *** The normalization on the host's numbers *)

(** Up to 2^53 in magnitude every integer is a double. *)
Lemma round_exact (z : Z) : Z.abs z <= 2 ^ 53 -> Double.round z = z.
Proof.
  change (2 ^ 53) with 9007199254740992. intros Hz.
  unfold Double.round, Double.spacing.
  destruct (Z.leb_spec (Z.log2 (Z.abs z)) 52) as [Hsmall | Hbig].
  - cbv zeta. rewrite Z.div_1_r, Z.mod_1_r. cbn [Z.mul Z.ltb Z.compare].
    lia.
  - assert (Hpos : 0 < Z.abs z).
    { destruct (Z.eq_dec (Z.abs z) 0) as [Hzero | Hnz]; [| lia].
      rewrite Hzero in Hbig. cbn in Hbig. lia. }
    assert (Hlow : 2 ^ 53 <= Z.abs z) by (apply Z.log2_le_pow2; lia).
    change (2 ^ 53) with 9007199254740992 in Hlow.
    assert (Hcases : z = 9007199254740992 \/ z = - 9007199254740992) by lia.
    destruct Hcases as [-> | ->]; reflexivity.
Qed.

Example double_rounds_to_even :
  Double.round (2 ^ 53 + 1) = 2 ^ 53 /\ Double.round (2 ^ 53 + 3) = 2 ^ 53 + 4.
Proof. split; reflexivity. Qed.

(** Twelve is less than half the distance between the doubles next to 2^60:
    there, [newHm -= 12] leaves [newHm] as it is. *)
Example twelve_is_lost_at_2_60 :
  Double.spacing (2 ^ 60) = 256 /\ Double.sub (2 ^ 60) 12 = 2 ^ 60.
Proof. split; reflexivity. Qed.

Example one_is_lost_at_2_53 : Double.add (2 ^ 53) 1 = 2 ^ 53.
Proof. reflexivity. Qed.

(** Within the exact range the loops on the host's numbers run as the
    loops on the integers do, and end within the rounds their measure
    counts. *)
Lemma fold_months_down_in_doubles_exact (y m : Z) :
  forall fuel,
    (steps_left m 12 <= fuel)%nat ->
    - 2 ^ 53 <= y -> m <= 2 ^ 53 -> y + m <= 2 ^ 53 ->
    fold_months_down_in_doubles fuel y m = Some (fold_months_down y m).
Proof.
  change (2 ^ 53) with 9007199254740992.
  funelim (fold_months_down y m); intros fuel Hfuel Hlow Hhigh Hsum.
  - unfold steps_left in Hfuel.
    destruct fuel as [| fuel']; [lia |].
    cbn [fold_months_down_in_doubles].
    destruct (Z.ltb_spec 12 newHm) as [_ | Hle]; [| lia].
    unfold Double.add, Double.sub.
    rewrite !round_exact
      by (change (2 ^ 53) with 9007199254740992; lia).
    match goal with
    | IH : forall _ : nat, _ |- _ => apply IH
    end; unfold steps_left; lia.
  - destruct fuel; cbn [fold_months_down_in_doubles];
      destruct (Z.ltb_spec 12 newHm); try lia; reflexivity.
Qed.

Lemma fold_months_up_in_doubles_exact (y m : Z) :
  forall fuel,
    (steps_left 1 m <= fuel)%nat ->
    y <= 2 ^ 53 -> - 2 ^ 53 <= m -> 12 - 12 * 2 ^ 53 <= 12 * y + m ->
    fold_months_up_in_doubles fuel y m = Some (fold_months_up y m).
Proof.
  change (2 ^ 53) with 9007199254740992.
  funelim (fold_months_up y m); intros fuel Hfuel Hhigh Hlow Hsum.
  - unfold steps_left in Hfuel.
    destruct fuel as [| fuel']; [lia |].
    cbn [fold_months_up_in_doubles].
    destruct (Z.ltb_spec newHm 1) as [_ | Hle]; [| lia].
    unfold Double.add, Double.sub.
    rewrite !round_exact
      by (change (2 ^ 53) with 9007199254740992; lia).
    match goal with
    | IH : forall _ : nat, _ |- _ => apply IH
    end; unfold steps_left; lia.
  - destruct fuel; cbn [fold_months_up_in_doubles];
      destruct (Z.ltb_spec newHm 1); try lia; reflexivity.
Qed.

(** Sums of at most 2^52 in magnitude leave room for the years the months
    fold into. *)
Lemma normalize_in_doubles_exact (y years m months : Z) :
  Z.abs (y + years) <= 2 ^ 52 ->
  Z.abs (m + months) <= 2 ^ 52 ->
  exists fuel,
    normalize_in_doubles fuel y years m months
    = Some (normalize_months (y + years) (m + months)).
Proof.
  change (2 ^ 52) with 4503599627370496. intros Hy Hm.
  exists (steps_left (m + months) 12 + steps_left 1 (m + months))%nat.
  unfold normalize_in_doubles, normalize_months, Double.add.
  rewrite !round_exact by (change (2 ^ 53) with 9007199254740992; lia).
  rewrite fold_months_down_in_doubles_exact
    by (change (2 ^ 53) with 9007199254740992; lia).
  destruct (fold_months_down (y + years) (m + months)) as [y1 m1] eqn:Hdown.
  pose proof (fold_months_down_spec _ _ _ _ Hdown) as (Hm1 & Hsame & Hfolded & Htotal).
  destruct (Z_le_gt_dec (m + months) 12) as [Hle | Hgt].
  - destruct (Hsame Hle) as [-> ->].
    apply fold_months_up_in_doubles_exact;
      change (2 ^ 53) with 9007199254740992; unfold steps_left; lia.
  - assert (1 <= m1) by lia.
    apply fold_months_up_in_doubles_exact;
      change (2 ^ 53) with 9007199254740992; unfold steps_left; lia.
Qed.

(** At 2^60 months the first loop makes no progress, whatever the number
    of rounds. *)
Lemma months_2_60_never_fold (fuel : nat) :
  forall newHy, fold_months_down_in_doubles fuel newHy (2 ^ 60) = None.
Proof.
  induction fuel as [| fuel IH]; intros newHy; cbn [fold_months_down_in_doubles];
    change (12 <? 2 ^ 60) with true; cbv iota.
  - reflexivity.
  - change (Double.sub (2 ^ 60) 12) with (2 ^ 60). apply IH.
Qed.

(** From 1 Ramadan 1444 a duration of 2^60 months, which a
    [Temporal.Duration] holds, sends [newHm] to 2^60, where
    [while (newHm > 12)] never exits. *)
Lemma normalization_runs_forever_at_2_60 : ~ normalization_ends_at_any_magnitude.
Proof.
  intros Hall.
  destruct (Hall (mkHijri 1444 9 1) 0 (2 ^ 60))
    as (fuel & y' & m' & Hrun & _); try reflexivity.
  unfold normalize_in_doubles in Hrun. cbn [hy hm] in Hrun.
  change (Double.add 9 (2 ^ 60)) with (2 ^ 60) in Hrun.
  rewrite months_2_60_never_fold in Hrun. discriminate Hrun.
Qed.

(** C3, amended. For a date with lunar coordinate (y, m, d) and a duration
    whose years and months are integers with |y + years| <= 2^52 and
    |m + months| <= 2^52, the normalization loops of dateAdd end on the
    host's numbers, with a target (y', m') such that m' lies in 1..12 and
    12*y' + m' = 12*(y + years) + (m + months); that target is the month
    dateAdd converts back. *)
Theorem dateAdd_normalizes_exact_months (this : t) (date : Temporal.PlainDate)
    (duration : Temporal.Duration) (options : option OverflowOptions)
    (h : HijriDate) :
  toHijri this date = Ok h ->
  Z.abs (hy h + Temporal.years duration) <= 2 ^ 52 ->
  Z.abs (hm h + Temporal.months duration) <= 2 ^ 52 ->
  exists fuel y' m',
    normalize_in_doubles fuel (hy h) (Temporal.years duration)
      (hm h) (Temporal.months duration) = Some (y', m')
    /\ 1 <= m' <= 12
    /\ 12 * y' + m'
       = 12 * (hy h + Temporal.years duration) + (hm h + Temporal.months duration)
    /\ dateAdd this date duration options
       = (intermediate <-
            fromHijri this y' m'
              (Z.min (hd h) (engine_daysInMonth (engine this) y' m')) ;;
          apply_day_delta duration intermediate).
Proof.
  intros Hh Hyears Hmonths.
  destruct (normalize_in_doubles_exact _ _ _ _ Hyears Hmonths) as [fuel Hrun].
  destruct (normalize_months_total (hy h + Temporal.years duration)
              (hm h + Temporal.months duration)) as (y' & m' & Hn & Hm & Hsum).
  exists fuel, y', m'. rewrite Hrun, Hn.
  repeat split; try assumption; try lia.
  now apply dateAdd_unfold.
Qed.

Lemma dateAdd_normalizes_exact_months_witness :
  toHijri (new Engines.computed) (Temporal.mkPlainDate 2023 3 23)
  = Ok (mkHijri 1444 9 1)
  /\ Z.abs (1444 + 3) <= 2 ^ 52
  /\ Z.abs (9 + 50) <= 2 ^ 52
  /\ exists fuel y' m',
       normalize_in_doubles fuel 1444 3 9 50 = Some (y', m')
       /\ 1 <= m' <= 12
       /\ 12 * y' + m' = 12 * (1444 + 3) + (9 + 50)
       /\ dateAdd (new Engines.computed) (Temporal.mkPlainDate 2023 3 23)
            (Temporal.mkDuration 3 50 0 0) None
          = (intermediate <-
               fromHijri (new Engines.computed) y' m'
                 (Z.min 1 (engine_daysInMonth Engines.computed y' m')) ;;
             apply_day_delta (Temporal.mkDuration 3 50 0 0) intermediate).
Proof.
  split; [reflexivity |].
  split; [change (2 ^ 52) with 4503599627370496; cbn; lia |].
  split; [change (2 ^ 52) with 4503599627370496; cbn; lia |].
  apply (dateAdd_normalizes_exact_months (new Engines.computed)
           (Temporal.mkPlainDate 2023 3 23) (Temporal.mkDuration 3 50 0 0)
           None (mkHijri 1444 9 1)).
  - reflexivity.
  - change (2 ^ 52) with 4503599627370496; cbn; lia.
  - change (2 ^ 52) with 4503599627370496; cbn; lia.
Defined.

Example fifty_months_on :
  normalize_in_doubles 4 1444 3 9 50 = Some (1451, 11)
  /\ normalize_in_doubles 3 1444 3 9 50 = None.
Proof. split; reflexivity. Qed.



Example reject_is_clamped :
  dateAdd (new Engines.tabulated) (Temporal.mkPlainDate 2023 3 22)
    (Temporal.mkDuration 0 1 0 0) (Some (mkOverflowOptions (Some reject)))
  = Ok (Temporal.mkPlainDate 2023 4 20).
Proof. reflexivity. Qed.




(** C7. Adding the zero duration returns the date itself, for a date the
    bridge round-trips and whose lunar coordinate has its month in 1..12
    and its day within the length of that month. *)
Theorem dateAdd_zero_is_identity (this : t) (date : Temporal.PlainDate)
    (options : option OverflowOptions) (h : HijriDate) :
  toHijri this date = Ok h ->
  fromHijri this (hy h) (hm h) (hd h) = Ok date ->
  1 <= hm h <= 12 ->
  hd h <= engine_daysInMonth (engine this) (hy h) (hm h) ->
  dateAdd this date Temporal.zeroDuration options = Ok date.
Proof.
  intros Hto Hfrom Hmonth Hday.
  assert (Hn : normalize_months (hy h + Temporal.years Temporal.zeroDuration)
                 (hm h + Temporal.months Temporal.zeroDuration) = (hy h, hm h)).
  { rewrite normalize_months_closed_form. cbn [Temporal.years Temporal.months
      Temporal.zeroDuration].
    assert ((hm h + 0 - 1) / 12 = 0) by (apply Z.div_small; lia).
    assert ((hm h + 0 - 1) mod 12 = hm h - 1)
      by (rewrite Z.mod_small by lia; lia).
    f_equal; lia. }
  rewrite (dateAdd_unfold this date Temporal.zeroDuration options h _ _ Hto Hn).
  rewrite Z.min_l by assumption. rewrite Hfrom. reflexivity.
Qed.

Lemma dateAdd_zero_is_identity_witness :
  toHijri (new Engines.tabulated) (Temporal.mkPlainDate 2023 3 23)
  = Ok (mkHijri 1444 9 1)
  /\ fromHijri (new Engines.tabulated) 1444 9 1
     = Ok (Temporal.mkPlainDate 2023 3 23)
  /\ dateAdd (new Engines.tabulated) (Temporal.mkPlainDate 2023 3 23)
       Temporal.zeroDuration None
     = Ok (Temporal.mkPlainDate 2023 3 23).
Proof.
  split; [reflexivity | split; [reflexivity |]].
  apply (dateAdd_zero_is_identity (new Engines.tabulated)
           (Temporal.mkPlainDate 2023 3 23) None (mkHijri 1444 9 1)).
  - reflexivity.
  - reflexivity.
  - cbn; lia.
  - cbn; lia.
Defined.


(* ===================================================================== *)
(** ** Differencing *)
(* ===================================================================== *)

(** From 1 Shawwal 1444 back to 1 Ramadan 1444 the components are
    -1 year and 11 months, which [Temporal.Duration] refuses. *)
Lemma dateUntil_throws_backwards : ~ dateUntil_always_returns.
Proof.
  intros Hall.
  destruct (Hall (new Engines.tabulated) (Temporal.mkPlainDate 2023 4 21)
              (Temporal.mkPlainDate 2023 3 23) (mkHijri 1444 10 1)
              (mkHijri 1444 9 1) (-1) 11 0) as [Hyears _].
  - reflexivity.
  - reflexivity.
  - cbn; lia.
  - reflexivity.
  - assert (Hrun : dateUntil (new Engines.tabulated) (Temporal.mkPlainDate 2023 4 21)
                     (Temporal.mkPlainDate 2023 3 23) (largest unit_years)
                   = Throw (RangeError
                       "mixed-sign values not allowed as duration fields"))
      by reflexivity.
    rewrite Hrun in Hyears. discriminate Hyears.
Qed.

Lemma borrow_is_preceding_month (y m : Z) :
  1 <= m ->
  (if m - 1 <? 1 then (12, y - 1) else (m - 1, y))
  = (snd (preceding_month y m), fst (preceding_month y m)).
Proof.
  intros Hm. unfold preceding_month.
  destruct (Z.ltb_spec (m - 1) 1); destruct (Z.eqb_spec m 1); cbn; try lia;
    reflexivity.
Qed.

(** C4, amended. With largestUnit years or months dateUntil takes the
    component-wise lunar differences, borrows the length of the month
    before end's month (in end's year, month 1 borrowing from month 12 of
    the year before) when days is negative, then borrows 12 months from
    the years when months is negative, and hands (years, months, 0, days),
    or (0, years*12+months, 0, days) for months, to the duration
    constructor: that duration is returned when its fields do not mix
    signs, and the constructor's RangeError is raised when they do. *)
Theorem dateUntil_lunar_difference (this : t) (one two : Temporal.PlainDate)
    (h1 h2 : HijriDate) (years months days : Z) :
  toHijri this one = Ok h1 ->
  toHijri this two = Ok h2 ->
  1 <= hm h2 <= 12 ->
  lunar_difference (engine this) h1 h2 = (years, months, days) ->
  (forall unit, unit = unit_years \/ unit = unit_year ->
     dateUntil this one two (largest unit)
     = Temporal.newDuration years months 0 days)
  /\ (forall unit, unit = unit_months \/ unit = unit_month ->
        dateUntil this one two (largest unit)
        = Temporal.newDuration 0 (years * 12 + months) 0 days)
  /\ (Temporal.mixed_signs years months 0 days = false ->
        dateUntil this one two (largest unit_years)
        = Ok (Temporal.mkDuration years months 0 days))
  /\ (Temporal.mixed_signs 0 (years * 12 + months) 0 days = false ->
        dateUntil this one two (largest unit_months)
        = Ok (Temporal.mkDuration 0 (years * 12 + months) 0 days))
  /\ (Temporal.mixed_signs years months 0 days = true ->
        is_range_error (dateUntil this one two (largest unit_years)) = true)
  /\ (Temporal.mixed_signs 0 (years * 12 + months) 0 days = true ->
        is_range_error (dateUntil this one two (largest unit_months)) = true).
Proof.
  intros H1 H2 Hmonth Hdiff.
  assert (Hyears : forall unit, unit = unit_years \/ unit = unit_year ->
            dateUntil this one two (largest unit)
            = Temporal.newDuration years months 0 days).
  { intros unit [-> | ->]; unfold dateUntil, largest; cbn [largestUnit];
      rewrite H1, H2; cbn [bind];
      rewrite borrow_is_preceding_month by lia;
      unfold lunar_difference in Hdiff;
      destruct (preceding_month (hy h2) (hm h2)) as [by_ bm]; cbn [fst snd];
      destruct (hd h2 - hd h1 <? 0);
      match type of Hdiff with
      | (let '(_, _) := if ?c then _ else _ in _) = _ => destruct c
      end; injection Hdiff as <- <- <-; reflexivity. }
  assert (Hmonths : forall unit, unit = unit_months \/ unit = unit_month ->
            dateUntil this one two (largest unit)
            = Temporal.newDuration 0 (years * 12 + months) 0 days).
  { intros unit [-> | ->]; unfold dateUntil, largest; cbn [largestUnit];
      rewrite H1, H2; cbn [bind];
      rewrite borrow_is_preceding_month by lia;
      unfold lunar_difference in Hdiff;
      destruct (preceding_month (hy h2) (hm h2)) as [by_ bm]; cbn [fst snd];
      destruct (hd h2 - hd h1 <? 0);
      match type of Hdiff with
      | (let '(_, _) := if ?c then _ else _ in _) = _ => destruct c
      end; injection Hdiff as <- <- <-; reflexivity. }
  split; [exact Hyears |]. split; [exact Hmonths |].
  rewrite (Hyears unit_years) by (left; reflexivity).
  rewrite (Hmonths unit_months) by (left; reflexivity).
  unfold Temporal.newDuration.
  repeat split; intros ->; reflexivity.
Qed.

Lemma dateUntil_lunar_difference_witness :
  toHijri (new Engines.tabulated) (Temporal.mkPlainDate 2023 3 25)
  = Ok (mkHijri 1444 9 3)
  /\ toHijri (new Engines.tabulated) (Temporal.mkPlainDate 2024 3 11)
     = Ok (mkHijri 1445 9 1)
  /\ lunar_difference Engines.tabulated (mkHijri 1444 9 3) (mkHijri 1445 9 1)
     = (0, 11, 28)
  /\ dateUntil (new Engines.tabulated) (Temporal.mkPlainDate 2023 3 25)
       (Temporal.mkPlainDate 2024 3 11) (largest unit_years)
     = Ok (Temporal.mkDuration 0 11 0 28).
Proof.
  split; [reflexivity | split; [reflexivity | split; [reflexivity |]]].
  apply (dateUntil_lunar_difference (new Engines.tabulated)
           (Temporal.mkPlainDate 2023 3 25) (Temporal.mkPlainDate 2024 3 11)
           (mkHijri 1444 9 3) (mkHijri 1445 9 1) 0 11 28).
  - reflexivity.
  - reflexivity.
  - cbn; lia.
  - reflexivity.
  - reflexivity.
Defined.

(** Counting forwards, between coordinates of the data model, the
    components are never negative, so the duration is returned. *)
Lemma forward_difference_is_returned (e : CalendarEngine) (start finish : HijriDate)
    (years months days : Z) :
  not_after start finish ->
  1 <= hm start <= 12 -> 1 <= hm finish <= 12 ->
  1 <= hd start <= 30 -> 1 <= hd finish ->
  (forall y m, 29 <= engine_daysInMonth e y m) ->
  lunar_difference e start finish = (years, months, days) ->
  0 <= years /\ 0 <= months /\ 0 <= days
  /\ Temporal.mixed_signs years months 0 days = false
  /\ Temporal.mixed_signs 0 (years * 12 + months) 0 days = false.
Proof.
  intros Horder Hm1 Hm2 Hd1 Hd2 Hlen Hdiff.
  assert (Hsigns : 0 <= years /\ 0 <= months /\ 0 <= days).
  { unfold lunar_difference, not_after in *.
    destruct (preceding_month (hy finish) (hm finish)) as [by_ bm].
    pose proof (Hlen by_ bm).
    destruct (Z.ltb_spec (hd finish - hd start) 0).
    - destruct (Z.ltb_spec (hm finish - hm start - 1) 0);
        injection Hdiff as <- <- <-; lia.
    - destruct (Z.ltb_spec (hm finish - hm start) 0);
        injection Hdiff as <- <- <-; lia. }
  destruct Hsigns as (Hy & Hm & Hd).
  repeat split; try assumption; unfold Temporal.mixed_signs.
  - destruct (Z.ltb_spec years 0), (Z.ltb_spec months 0), (Z.ltb_spec days 0);
      try lia; reflexivity.
  - destruct (Z.ltb_spec (years * 12 + months) 0), (Z.ltb_spec days 0);
      try lia; reflexivity.
Qed.


(* ===================================================================== *)
(** ** The ISO day numbers, read the other way *)
(* ===================================================================== *)

Lemma day_of_era_split (doe : Z) :
  0 <= doe <= 146096 ->
  let yoe := (doe - doe / 1460 + doe / 36524 - doe / 146096) / 365 in
  0 <= yoe <= 399 /\ 0 <= doe - (365 * yoe + yoe / 4 - yoe / 100) <= 365.
Proof.
  intros Hdoe yoe. subst yoe. split.
  - Z.div_mod_to_equations. lia.
  - Z.div_mod_to_equations. lia.
Qed.

Lemma day_of_year_split (doy : Z) :
  0 <= doy <= 365 ->
  let mp := (5 * doy + 2) / 153 in
  0 <= mp <= 11 /\ 1 <= doy - (153 * mp + 2) / 5 + 1 <= 31.
Proof.
  intros Hdoy mp. subst mp. split.
  - Z.div_mod_to_equations. lia.
  - Z.div_mod_to_equations. lia.
Qed.

(** Every day number is the day number of the fields read from it. *)
Lemma days_round_trip (z : Z) :
  let '(y, m, d) := ISO.civil_from_days z in
  ISO.days_from_civil y m d = z /\ 1 <= m <= 12 /\ 1 <= d <= 31.
Proof.
  unfold ISO.civil_from_days.
  set (era := (z + 719468) / 146097).
  set (doe := z + 719468 - era * 146097).
  assert (Hdoe : 0 <= doe <= 146096)
    by (subst doe era; Z.div_mod_to_equations; lia).
  destruct (day_of_era_split doe Hdoe) as [Hyoe Hdoy].
  set (yoe := (doe - doe / 1460 + doe / 36524 - doe / 146096) / 365) in *.
  set (doy := doe - (365 * yoe + yoe / 4 - yoe / 100)) in *.
  destruct (day_of_year_split doy Hdoy) as [Hmp Hd].
  set (mp := (5 * doy + 2) / 153) in *.
  set (d := doy - (153 * mp + 2) / 5 + 1) in *.
  cbv zeta.
  assert (Hera : (yoe + era * 400) / 400 = era)
    by (rewrite Z.div_add by lia; rewrite Z.div_small by lia; lia).
  unfold ISO.days_from_civil.
  destruct (Z.ltb_spec mp 10) as [Hlt | Hge].
  - destruct (Z.leb_spec (mp + 3) 2) as [|_]; [lia |].
    rewrite Hera.
    replace ((mp + 3 + 9) mod 12) with mp by (Z.div_mod_to_equations; lia).
    replace (yoe + era * 400 - era * 400) with yoe by lia.
    repeat split; try lia; subst d doy doe; lia.
  - destruct (Z.leb_spec (mp - 9) 2) as [_|]; [| lia].
    replace (yoe + era * 400 + 1 - 1) with (yoe + era * 400) by lia.
    rewrite Hera.
    replace ((mp - 9 + 9) mod 12) with mp by (Z.div_mod_to_equations; lia).
    replace (yoe + era * 400 - era * 400) with yoe by lia.
    repeat split; try lia; subst d doy doe; lia.
Qed.

Lemma epochDay_ofEpochDay (z : Z) :
  Temporal.epochDay (Temporal.ofEpochDay z) = z.
Proof.
  pose proof (days_round_trip z) as H.
  unfold Temporal.ofEpochDay, Temporal.epochDay.
  destruct (ISO.civil_from_days z) as [[y m] d]. cbn. tauto.
Qed.

Lemma ofEpochDay_epochDay (date : Temporal.PlainDate) :
  Temporal.valid date = true ->
  Temporal.ofEpochDay (Temporal.epochDay date) = date.
Proof.
  intros Hv. apply valid_fields in Hv. destruct Hv as [Hm Hd].
  unfold Temporal.ofEpochDay, Temporal.epochDay.
  rewrite civil_round_trip by assumption. now destruct date.
Qed.

(** The date read from a [Date] builds that [Date] again, unless its year
    lies between 0 and 99. *)
Lemma date_of_its_fields (greg : JsDate.t) :
  ~ 0 <= JsDate.getUTCFullYear greg <= 99 ->
  JsDate.make (JsDate.getUTCFullYear greg) (JsDate.getUTCMonth greg + 1 - 1)
    (JsDate.getUTCDate greg) = greg.
Proof.
  destruct greg as [z].
  unfold JsDate.getUTCFullYear, JsDate.getUTCMonth, JsDate.getUTCDate.
  cbn [JsDate.utcDay].
  pose proof (days_round_trip z) as H.
  destruct (ISO.civil_from_days z) as [[y m] d].
  destruct H as (Hz & Hm & Hd). intros Hyear.
  unfold JsDate.make.
  replace ((0 <=? y) && (y <=? 99)) with false
    by (symmetry; apply andb_false_iff;
        destruct (Z.leb_spec 0 y); destruct (Z.leb_spec y 99); auto; lia).
  cbv zeta.
  replace (m - 1 + 1 - 1) with (m - 1) by lia.
  rewrite (Z.div_small (m - 1) 12) by lia.
  rewrite (Z.mod_small (m - 1) 12) by lia.
  replace (y + 0) with y by lia. replace (m - 1 + 1) with m by lia.
  f_equal. rewrite <- Hz. unfold ISO.days_from_civil. lia.
Qed.

(** Where the engine inverts itself on the answer it gives for a lunar
    coordinate, and the [Date] built from the fields of that answer falls
    on its day, the bridge reads the coordinate back from the date it
    built. *)
Lemma toHijri_of_fromHijri (this : t) (y m d : Z) (greg : JsDate.t) :
  engine_toGregorian (engine this) y m d = Some greg ->
  engine_toHijri (engine this) greg = Some (mkHijri y m d) ->
  rebuilt_on_its_day greg ->
  exists date,
    fromHijri this y m d = Ok date /\ toHijri this date = Ok (mkHijri y m d).
Proof.
  intros Hfrom Hto Hday.
  exists (Temporal.from (JsDate.getUTCFullYear greg) (JsDate.getUTCMonth greg + 1)
            (JsDate.getUTCDate greg)).
  split.
  - unfold fromHijri. now rewrite Hfrom.
  - unfold toHijri, Temporal.from. cbn [Temporal.year Temporal.month Temporal.day].
    unfold rebuilt_on_its_day in Hday. rewrite Hday, Hto. reflexivity.
Qed.

(** The bridge returns a date of the engine's domain from its lunar
    coordinate where the [Date] built from it falls on its day. *)
Lemma round_trip_where_built_on_its_day (this : t) (date : Temporal.PlainDate) :
  Temporal.valid date = true ->
  built_on_its_day date ->
  in_domain (engine this) date ->
  round_trip this date = Ok date.
Proof.
  intros Hv Hday (h & Hto & Hfrom).
  unfold round_trip, toHijri. unfold built_on_its_day in Hday.
  rewrite Hday, Hto. cbn [bind].
  unfold fromHijri. rewrite Hfrom.
  now rewrite (plain_date_of_date date Hv).
Qed.

(** With the host in UTC, dates outside the years 0 to 99 and [Date]s
    outside them are built on their day. *)
Lemma built_on_its_day_outside_two_digit_years (date : Temporal.PlainDate) :
  Temporal.valid date = true -> ~ two_digit_year date -> built_on_its_day date.
Proof. exact (date_of_plain_date date). Qed.

Lemma rebuilt_on_its_day_outside_two_digit_years (greg : JsDate.t) :
  ~ 0 <= JsDate.getUTCFullYear greg <= 99 -> rebuilt_on_its_day greg.
Proof. exact (date_of_its_fields greg). Qed.

(* ===================================================================== *)
(** ** Further properties of the bridge and of the accessors *)
(* ===================================================================== *)

(** X1. For a date of the engine's domain such that the Date toHijri
    builds from it, new Date(year, month - 1, day), falls on the UTC day of
    the date (as with the host in UTC and an ISO year outside 0..99),
    dateFromFields on the year, month and day the calendar reads from the
    date returns the date, whatever the options. *)
Theorem dateFromFields_returns_the_date (this : t) (date : Temporal.PlainDate)
    (options : option OverflowOptions) :
  Temporal.valid date = true ->
  built_on_its_day date ->
  in_domain (engine this) date ->
  exists y m d,
    year this date = Ok y /\ month this date = Ok m /\ day this date = Ok d
    /\ dateFromFields this (mkHijri y m d) options = Ok date.
Proof.
  intros Hv Hday Hdom.
  pose proof (round_trip_where_built_on_its_day this date Hv Hday Hdom) as R.
  unfold round_trip in R.
  destruct (toHijri this date) as [h | error] eqn:Hh; [| discriminate R].
  exists (hy h), (hm h), (hd h).
  unfold year, month, day. rewrite Hh. cbn [bind].
  repeat split. exact R.
Qed.

Lemma dateFromFields_returns_the_date_witness :
  Temporal.valid (Temporal.mkPlainDate 2023 3 23) = true
  /\ built_on_its_day (Temporal.mkPlainDate 2023 3 23)
  /\ exists y m d,
       year (new Engines.tabulated) (Temporal.mkPlainDate 2023 3 23) = Ok y
       /\ month (new Engines.tabulated) (Temporal.mkPlainDate 2023 3 23) = Ok m
       /\ day (new Engines.tabulated) (Temporal.mkPlainDate 2023 3 23) = Ok d
       /\ dateFromFields (new Engines.tabulated) (mkHijri y m d) None
          = Ok (Temporal.mkPlainDate 2023 3 23).
Proof.
  split; [reflexivity | split].
  - reflexivity.
  - apply (dateFromFields_returns_the_date (new Engines.tabulated)
             (Temporal.mkPlainDate 2023 3 23) None).
    + reflexivity.
    + reflexivity.
    + exists (mkHijri 1444 9 1). split; reflexivity.
Defined.

(** The condition is needed: 0050-01-01 is in the domain of the computed
    engine, its Date is built in 1950, and the fields read from it build
    1950-01-01. *)
Example fields_of_a_two_digit_year :
  let this := new Engines.computed in
  let date := Temporal.mkPlainDate 50 1 1 in
  ~ built_on_its_day date
  /\ (y <- year this date ;; m <- month this date ;; d <- day this date ;;
      dateFromFields this (mkHijri y m d) None)
     = Ok (Temporal.mkPlainDate 1950 1 1).
Proof.
  cbv zeta. split; [| reflexivity].
  unfold built_on_its_day. intros Heq. discriminate Heq.
Qed.

(** X2. Where the engine inverts itself on the Date it gives for a lunar
    coordinate, and the Date toHijri builds from the UTC fields of that
    Date falls on the same UTC day (as with the host in UTC and an ISO
    year outside 0..99), year, month and day of the date dateFromFields
    builds are the fields it was built from. *)
Theorem accessors_read_back_the_fields (this : t) (fields : HijriDate)
    (options : option OverflowOptions) (greg : JsDate.t) :
  engine_toGregorian (engine this) (hy fields) (hm fields) (hd fields) = Some greg ->
  engine_toHijri (engine this) greg = Some fields ->
  rebuilt_on_its_day greg ->
  exists date,
    dateFromFields this fields options = Ok date
    /\ year this date = Ok (hy fields)
    /\ month this date = Ok (hm fields)
    /\ day this date = Ok (hd fields).
Proof.
  intros Hfrom Hto Hday. destruct fields as [y m d]. cbn [hy hm hd] in *.
  destruct (toHijri_of_fromHijri this y m d greg Hfrom Hto Hday)
    as (date & Hbuilt & Hread).
  exists date. unfold dateFromFields, year, month, day. cbn [hy hm hd].
  rewrite Hread. cbn [bind]. repeat split. exact Hbuilt.
Qed.

Lemma accessors_read_back_the_fields_witness :
  engine_toGregorian Engines.tabulated 1444 9 1 = Some (JsDate.of_day 19439)
  /\ engine_toHijri Engines.tabulated (JsDate.of_day 19439) = Some (mkHijri 1444 9 1)
  /\ rebuilt_on_its_day (JsDate.of_day 19439)
  /\ exists date,
       dateFromFields (new Engines.tabulated) (mkHijri 1444 9 1) None = Ok date
       /\ year (new Engines.tabulated) date = Ok 1444
       /\ month (new Engines.tabulated) date = Ok 9
       /\ day (new Engines.tabulated) date = Ok 1.
Proof.
  split; [reflexivity | split; [reflexivity | split]].
  - reflexivity.
  - apply (accessors_read_back_the_fields (new Engines.tabulated)
             (mkHijri 1444 9 1) None (JsDate.of_day 19439)).
    + reflexivity.
    + reflexivity.
    + reflexivity.
Defined.

(** X3. On a date the engine answers with absence, every method that
    reads the lunar coordinate throws the RangeError of toHijri, the same
    one: year, month, monthCode, day, daysInMonth, daysInYear, inLeapYear,
    dayOfYear, weekOfYear, and dateAdd whatever the duration, the zero
    duration included. *)
Theorem lunar_methods_throw_outside_domain (this : t) (date : Temporal.PlainDate) :
  engine_toHijri (engine this)
    (JsDate.make (Temporal.year date) (Temporal.month date - 1) (Temporal.day date))
  = None ->
  let error := RangeError (toHijri_message this date) in
  year this date = Throw error
  /\ month this date = Throw error
  /\ monthCode this date = Throw error
  /\ day this date = Throw error
  /\ daysInMonth this date = Throw error
  /\ daysInYear this date = Throw error
  /\ inLeapYear this date = Throw error
  /\ dayOfYear this date = Throw error
  /\ weekOfYear this date = Throw error
  /\ (forall duration options, dateAdd this date duration options = Throw error).
Proof.
  intros Habs error.
  assert (Hthrow : toHijri this date = Throw error)
    by (unfold toHijri; rewrite Habs; reflexivity).
  unfold year, month, monthCode, day, daysInMonth, inLeapYear, daysInYear,
    weekOfYear, dayOfYear, dateAdd.
  rewrite Hthrow. cbn [bind]. repeat split.
Qed.

Lemma lunar_methods_throw_outside_domain_witness :
  engine_toHijri Engines.tabulated (JsDate.make 1800 (1 - 1) 1) = None
  /\ year (new Engines.tabulated) (Temporal.mkPlainDate 1800 1 1)
     = Throw (RangeError
         "Date 1800-01-01 is out of range for the hijri-table calendar")
  /\ dateAdd (new Engines.tabulated) (Temporal.mkPlainDate 1800 1 1)
       Temporal.zeroDuration None
     = Throw (RangeError
         "Date 1800-01-01 is out of range for the hijri-table calendar").
Proof.
  split; [reflexivity |].
  pose proof (lunar_methods_throw_outside_domain (new Engines.tabulated)
                (Temporal.mkPlainDate 1800 1 1)) as H.
  cbv zeta in H. split.
  - apply H. reflexivity.
  - apply H. reflexivity.
Defined.

(** X4. For a lunar month from 1 to 12 monthCode is "M" followed by the
    month in two digits: the code of that rank among M01 to M12, three
    characters long; and two dates with such months have the same code
    only if they have the same month. *)
Theorem monthCode_is_padded_month (this : t) (date : Temporal.PlainDate)
    (h : HijriDate) :
  toHijri this date = Ok h ->
  1 <= hm h <= 12 ->
  exists code,
    monthCode this date = Ok code
    /\ nth_error month_codes (Z.to_nat (hm h - 1)) = Some code
    /\ String.length code = 3%nat
    /\ (forall date' h',
          toHijri this date' = Ok h' -> 1 <= hm h' <= 12 ->
          monthCode this date' = Ok code -> hm h' = hm h).
Proof.
  intros Hh Hmonth.
  assert (Hcode : forall d' k, toHijri this d' = Ok k ->
            monthCode this d' = Ok ("M" ++ padStart0 2 (String_ (hm k))))
    by (intros d' k Hk; unfold monthCode; rewrite Hk; reflexivity).
  exists ("M" ++ padStart0 2 (String_ (hm h))).
  split; [now apply Hcode |].
  assert (Hcases : forall v, 1 <= v <= 12 ->
            v = 1 \/ v = 2 \/ v = 3 \/ v = 4 \/ v = 5 \/ v = 6
            \/ v = 7 \/ v = 8 \/ v = 9 \/ v = 10 \/ v = 11 \/ v = 12)
    by (intros; lia).
  split; [| split].
  - destruct (Hcases _ Hmonth) as [E|[E|[E|[E|[E|[E|[E|[E|[E|[E|[E|E]]]]]]]]]]];
      rewrite E; reflexivity.
  - destruct (Hcases _ Hmonth) as [E|[E|[E|[E|[E|[E|[E|[E|[E|[E|[E|E]]]]]]]]]]];
      rewrite E; reflexivity.
  - intros date' h' Hh' Hmonth' Hsame.
    rewrite (Hcode date' h' Hh') in Hsame. injection Hsame as Hsame.
    destruct (Hcases _ Hmonth) as [E|[E|[E|[E|[E|[E|[E|[E|[E|[E|[E|E]]]]]]]]]]];
      destruct (Hcases _ Hmonth') as [F|[F|[F|[F|[F|[F|[F|[F|[F|[F|[F|F]]]]]]]]]]];
      rewrite E, F in *; first [reflexivity | discriminate Hsame].
Qed.

Lemma monthCode_is_padded_month_witness :
  toHijri (new Engines.tabulated) (Temporal.mkPlainDate 2023 3 23)
  = Ok (mkHijri 1444 9 1)
  /\ exists code,
       monthCode (new Engines.tabulated) (Temporal.mkPlainDate 2023 3 23) = Ok code
       /\ nth_error month_codes (Z.to_nat (9 - 1)) = Some code
       /\ String.length code = 3%nat
       /\ (forall date' h',
             toHijri (new Engines.tabulated) date' = Ok h' -> 1 <= hm h' <= 12 ->
             monthCode (new Engines.tabulated) date' = Ok code -> hm h' = 9).
Proof.
  split; [reflexivity |].
  apply (monthCode_is_padded_month (new Engines.tabulated)
           (Temporal.mkPlainDate 2023 3 23) (mkHijri 1444 9 1)).
  - reflexivity.
  - cbn; lia.
Defined.

(** Outside 1 to 12 the month is printed as it is, neither cut nor
    refused. *)
Example monthCode_of_other_months :
  "M" ++ padStart0 2 (String_ 0) = "M00"
  /\ "M" ++ padStart0 2 (String_ 123) = "M123"
  /\ "M" ++ padStart0 2 (String_ (-1)) = "M-1".
Proof. repeat split. Qed.

Lemma ceil_div7_spec (n : Z) : 7 * (ceil_div7 n - 1) < n <= 7 * ceil_div7 n.
Proof. unfold ceil_div7. Z.div_mod_to_equations. lia. Qed.

Lemma ceil_div7_monotone (n k : Z) : n <= k -> ceil_div7 n <= ceil_div7 k.
Proof. unfold ceil_div7. intros Hnk. Z.div_mod_to_equations. lia. Qed.

(** X5. weekOfYear is the least w with dayOfYear <= 7 w; for a lunar
    coordinate of the data model (month in 1..12, month lengths 29 or 30,
    day within its month) it lies between 1 and 52. *)
Theorem weekOfYear_is_ceiling (this : t) (date : Temporal.PlainDate)
    (h : HijriDate) :
  toHijri this date = Ok h ->
  1 <= hm h <= 12 ->
  (forall m, 1 <= m <= 12 ->
     engine_daysInMonth (engine this) (hy h) m = 29
     \/ engine_daysInMonth (engine this) (hy h) m = 30) ->
  1 <= hd h <= engine_daysInMonth (engine this) (hy h) (hm h) ->
  exists n w,
    dayOfYear this date = Ok n
    /\ weekOfYear this date = Ok w
    /\ 7 * (w - 1) < n <= 7 * w
    /\ 1 <= w <= 52.
Proof.
  intros Hh Hmonth Hlen Hday.
  set (f := engine_daysInMonth (engine this) (hy h)) in *.
  pose proof (dayOfYear_value this date h Hh) as Hn. fold f in Hn.
  exists (month_sum f (hm h - 1) + hd h), (ceil_div7 (month_sum f (hm h - 1) + hd h)).
  assert (Hbefore : 0 * (hm h - 1) <= month_sum f (hm h - 1) <= 30 * (hm h - 1)).
  { apply month_sum_bounds; [lia |]. intros m Hm. destruct (Hlen m ltac:(lia)); lia. }
  assert (Hthis : f (hm h) <= 30) by (destruct (Hlen (hm h) Hmonth); lia).
  pose proof (ceil_div7_spec (month_sum f (hm h - 1) + hd h)) as Hceil.
  split; [exact Hn |]. split; [unfold weekOfYear; rewrite Hn; reflexivity |].
  split; [exact Hceil |]. lia.
Qed.

Lemma weekOfYear_is_ceiling_witness :
  toHijri (new Engines.tabulated) (Temporal.mkPlainDate 2023 3 23)
  = Ok (mkHijri 1444 9 1)
  /\ exists n w,
       dayOfYear (new Engines.tabulated) (Temporal.mkPlainDate 2023 3 23) = Ok n
       /\ weekOfYear (new Engines.tabulated) (Temporal.mkPlainDate 2023 3 23) = Ok w
       /\ 7 * (w - 1) < n <= 7 * w
       /\ 1 <= w <= 52.
Proof.
  split; [reflexivity |].
  apply (weekOfYear_is_ceiling (new Engines.tabulated)
           (Temporal.mkPlainDate 2023 3 23) (mkHijri 1444 9 1)).
  - reflexivity.
  - cbn; lia.
  - intros m _. apply alternating_29_or_30.
  - cbn; lia.
Defined.

Example tabulated_weekOfYear :
  weekOfYear (new Engines.tabulated) (Temporal.mkPlainDate 2023 3 23) = Ok 34.
Proof. reflexivity. Qed.

Lemma month_sum_last (f : Z -> Z) (m : Z) :
  1 <= m -> month_sum f m = month_sum f (m - 1) + f m.
Proof.
  intros Hm. replace m with (m - 1 + 1) at 1 by lia.
  rewrite month_sum_step by lia. now replace (m - 1 + 1) with m by lia.
Qed.

(** X6. Within one lunar year dayOfYear follows the order of the dates: of
    two dates of the data model in the same lunar year, the one with the
    earlier month, or the same month and the earlier day, has the smaller
    dayOfYear, and a weekOfYear that is not larger. *)
Theorem dayOfYear_orders_the_year (this : t) (one two : Temporal.PlainDate)
    (h1 h2 : HijriDate) :
  toHijri this one = Ok h1 ->
  toHijri this two = Ok h2 ->
  hy h1 = hy h2 ->
  1 <= hm h1 -> hm h2 <= 12 ->
  (forall m, 1 <= m <= 12 ->
     engine_daysInMonth (engine this) (hy h1) m = 29
     \/ engine_daysInMonth (engine this) (hy h1) m = 30) ->
  1 <= hd h1 <= engine_daysInMonth (engine this) (hy h1) (hm h1) ->
  1 <= hd h2 ->
  hm h1 < hm h2 \/ (hm h1 = hm h2 /\ hd h1 < hd h2) ->
  exists n1 n2 w1 w2,
    dayOfYear this one = Ok n1 /\ dayOfYear this two = Ok n2 /\ n1 < n2
    /\ weekOfYear this one = Ok w1 /\ weekOfYear this two = Ok w2 /\ w1 <= w2.
Proof.
  intros H1 H2 Hyear Hlow Hhigh Hlen Hd1 Hd2 Horder.
  set (f := engine_daysInMonth (engine this) (hy h1)) in *.
  pose proof (dayOfYear_value this one h1 H1) as Hn1. fold f in Hn1.
  pose proof (dayOfYear_value this two h2 H2) as Hn2.
  rewrite <- Hyear in Hn2. fold f in Hn2.
  assert (Hpos : forall m, 1 <= m <= 12 -> 0 <= f m)
    by (intros m Hm; destruct (Hlen m Hm); lia).
  assert (Hlt : month_sum f (hm h1 - 1) + hd h1 < month_sum f (hm h2 - 1) + hd h2).
  { destruct Horder as [Hmonth | [Hmonth Hday]].
    - assert (month_sum f (hm h1) <= month_sum f (hm h2 - 1))
        by (apply month_sum_monotone; [lia | intros m Hm; apply Hpos; lia]).
      rewrite (month_sum_last f (hm h1)) in * by lia. lia.
    - rewrite Hmonth. lia. }
  exists (month_sum f (hm h1 - 1) + hd h1), (month_sum f (hm h2 - 1) + hd h2),
         (ceil_div7 (month_sum f (hm h1 - 1) + hd h1)),
         (ceil_div7 (month_sum f (hm h2 - 1) + hd h2)).
  unfold weekOfYear. rewrite Hn1, Hn2. cbn [bind].
  repeat split; try assumption. apply ceil_div7_monotone. lia.
Qed.

Lemma dayOfYear_orders_the_year_witness :
  toHijri (new Engines.tabulated) (Temporal.mkPlainDate 2023 3 22)
  = Ok (mkHijri 1444 8 30)
  /\ toHijri (new Engines.tabulated) (Temporal.mkPlainDate 2023 3 23)
     = Ok (mkHijri 1444 9 1)
  /\ exists n1 n2 w1 w2,
       dayOfYear (new Engines.tabulated) (Temporal.mkPlainDate 2023 3 22) = Ok n1
       /\ dayOfYear (new Engines.tabulated) (Temporal.mkPlainDate 2023 3 23) = Ok n2
       /\ n1 < n2
       /\ weekOfYear (new Engines.tabulated) (Temporal.mkPlainDate 2023 3 22) = Ok w1
       /\ weekOfYear (new Engines.tabulated) (Temporal.mkPlainDate 2023 3 23) = Ok w2
       /\ w1 <= w2.
Proof.
  split; [reflexivity | split; [reflexivity |]].
  apply (dayOfYear_orders_the_year (new Engines.tabulated)
           (Temporal.mkPlainDate 2023 3 22) (Temporal.mkPlainDate 2023 3 23)
           (mkHijri 1444 8 30) (mkHijri 1444 9 1)).
  - reflexivity.
  - reflexivity.
  - reflexivity.
  - cbn; lia.
  - cbn; lia.
  - intros m _. apply alternating_29_or_30.
  - cbn; lia.
  - cbn; lia.
  - left. cbn; lia.
Defined.

(** X7. dayOfYear counts the days of the lunar year one by one: the next
    day of the same month, and the first day of the next month after the
    last day of a month, have the dayOfYear of the day before plus one. *)
Theorem dayOfYear_steps_by_one (this : t) (one two : Temporal.PlainDate)
    (h1 h2 : HijriDate) :
  toHijri this one = Ok h1 ->
  toHijri this two = Ok h2 ->
  hy h1 = hy h2 ->
  1 <= hm h1 ->
  (hm h2 = hm h1 /\ hd h2 = hd h1 + 1)
  \/ (hm h2 = hm h1 + 1
      /\ hd h1 = engine_daysInMonth (engine this) (hy h1) (hm h1)
      /\ hd h2 = 1) ->
  exists n, dayOfYear this one = Ok n /\ dayOfYear this two = Ok (n + 1).
Proof.
  intros H1 H2 Hyear Hlow Hnext.
  set (f := engine_daysInMonth (engine this) (hy h1)) in *.
  pose proof (dayOfYear_value this one h1 H1) as Hn1. fold f in Hn1.
  pose proof (dayOfYear_value this two h2 H2) as Hn2.
  rewrite <- Hyear in Hn2. fold f in Hn2.
  exists (month_sum f (hm h1 - 1) + hd h1). split; [exact Hn1 |].
  rewrite Hn2. f_equal.
  destruct Hnext as [[Hmonth Hday] | (Hmonth & Hlast & Hfirst)].
  - rewrite Hmonth, Hday. lia.
  - rewrite Hmonth, Hfirst, Hlast.
    replace (hm h1 + 1 - 1) with (hm h1) by lia.
    rewrite (month_sum_last f (hm h1)) by lia. lia.
Qed.

Lemma dayOfYear_steps_by_one_witness :
  toHijri (new Engines.tabulated) (Temporal.mkPlainDate 2023 3 22)
  = Ok (mkHijri 1444 8 30)
  /\ toHijri (new Engines.tabulated) (Temporal.mkPlainDate 2023 3 23)
     = Ok (mkHijri 1444 9 1)
  /\ engine_daysInMonth Engines.tabulated 1444 8 = 30
  /\ exists n,
       dayOfYear (new Engines.tabulated) (Temporal.mkPlainDate 2023 3 22) = Ok n
       /\ dayOfYear (new Engines.tabulated) (Temporal.mkPlainDate 2023 3 23)
          = Ok (n + 1).
Proof.
  split; [reflexivity | split; [reflexivity | split; [reflexivity |]]].
  apply (dayOfYear_steps_by_one (new Engines.tabulated)
           (Temporal.mkPlainDate 2023 3 22) (Temporal.mkPlainDate 2023 3 23)
           (mkHijri 1444 8 30) (mkHijri 1444 9 1)).
  - reflexivity.
  - reflexivity.
  - reflexivity.
  - cbn; lia.
  - right. repeat split.
Defined.

(** X8. dayOfYear at the ends of the lunar year: it is the lunar day in
    month 1 (and for any month below 1, where the loop does not run), so 1
    on the first day of the year, and it is daysInYear on the last day of
    month 12. *)
Theorem dayOfYear_at_the_ends (this : t) (date : Temporal.PlainDate)
    (h : HijriDate) :
  toHijri this date = Ok h ->
  (hm h <= 1 -> dayOfYear this date = Ok (hd h))
  /\ (hm h = 12 ->
      hd h = engine_daysInMonth (engine this) (hy h) 12 ->
      dayOfYear this date = daysInYear this date).
Proof.
  intros Hh.
  rewrite (dayOfYear_value this date h Hh), (daysInYear_value this date h Hh).
  split.
  - intros Hfirst. rewrite month_sum_nonpos by lia. reflexivity.
  - intros Hlast Hday. rewrite Hlast, Hday.
    rewrite (month_sum_last _ 12) by lia. reflexivity.
Qed.

Lemma dayOfYear_at_the_ends_witness :
  toHijri (new Engines.tabulated) (Temporal.mkPlainDate 2023 7 18)
  = Ok (mkHijri 1444 12 30)
  /\ engine_daysInMonth Engines.tabulated 1444 12 = 30
  /\ dayOfYear (new Engines.tabulated) (Temporal.mkPlainDate 2023 7 18)
     = daysInYear (new Engines.tabulated) (Temporal.mkPlainDate 2023 7 18).
Proof.
  split; [reflexivity | split; [reflexivity |]].
  apply (dayOfYear_at_the_ends (new Engines.tabulated)
           (Temporal.mkPlainDate 2023 7 18) (mkHijri 1444 12 30)); reflexivity.
Defined.

(* ===================================================================== *)
(** ** Further properties of the addition *)
(* ===================================================================== *)

(** Month counts with the same total normalize to the same month. *)
Lemma normalize_months_same_total (y m y' m' : Z) :
  12 * y + m = 12 * y' + m' ->
  normalize_months y m = normalize_months y' m'.
Proof.
  intros Htotal. rewrite !normalize_months_closed_form.
  replace (m - 1) with (m' - 1 + (y' - y) * 12) by lia.
  rewrite Z.div_add by lia. rewrite Z.mod_add by lia. f_equal. lia.
Qed.

(** X9. Within the exact range of the host's numbers, |y + years| <= 2^52
    and |m + months| <= 2^52, the normalization of dateAdd ends on the
    target in closed form: month ((m + months - 1) mod 12) + 1 of the year
    y + years + floor((m + months - 1) / 12); dateAdd converts that month
    back, with the day clamped to it. *)
Theorem dateAdd_target_in_closed_form (this : t) (date : Temporal.PlainDate)
    (duration : Temporal.Duration) (options : option OverflowOptions)
    (h : HijriDate) :
  toHijri this date = Ok h ->
  Z.abs (hy h + Temporal.years duration) <= 2 ^ 52 ->
  Z.abs (hm h + Temporal.months duration) <= 2 ^ 52 ->
  let total := hm h + Temporal.months duration - 1 in
  let y' := hy h + Temporal.years duration + total / 12 in
  let m' := total mod 12 + 1 in
  (exists fuel,
     normalize_in_doubles fuel (hy h) (Temporal.years duration)
       (hm h) (Temporal.months duration) = Some (y', m'))
  /\ dateAdd this date duration options
     = (intermediate <-
          fromHijri this y' m' (Z.min (hd h) (engine_daysInMonth (engine this) y' m')) ;;
        apply_day_delta duration intermediate).
Proof.
  intros Hh Hyears Hmonths total y' m'. split.
  - destruct (normalize_in_doubles_exact _ _ _ _ Hyears Hmonths) as [fuel Hrun].
    exists fuel. rewrite Hrun. f_equal. apply normalize_months_closed_form.
  - apply (dateAdd_unfold this date duration options h y' m' Hh).
    apply normalize_months_closed_form.
Qed.

Lemma dateAdd_target_in_closed_form_witness :
  toHijri (new Engines.tabulated) (Temporal.mkPlainDate 2023 3 23)
  = Ok (mkHijri 1444 9 1)
  /\ (exists fuel,
        normalize_in_doubles fuel 1444 0 9 (-9)
        = Some (1444 + 0 + (9 + -9 - 1) / 12, (9 + -9 - 1) mod 12 + 1))
  /\ dateAdd (new Engines.tabulated) (Temporal.mkPlainDate 2023 3 23)
       (lunar_duration 0 (-9)) None
     = (intermediate <-
          fromHijri (new Engines.tabulated) (1444 + 0 + (9 + -9 - 1) / 12)
            ((9 + -9 - 1) mod 12 + 1)
            (Z.min 1 (engine_daysInMonth Engines.tabulated
                        (1444 + 0 + (9 + -9 - 1) / 12) ((9 + -9 - 1) mod 12 + 1))) ;;
        apply_day_delta (lunar_duration 0 (-9)) intermediate).
Proof.
  split; [reflexivity |].
  apply (dateAdd_target_in_closed_form (new Engines.tabulated)
           (Temporal.mkPlainDate 2023 3 23) (lunar_duration 0 (-9)) None
           (mkHijri 1444 9 1)).
  - reflexivity.
  - change (2 ^ 52) with 4503599627370496; cbn; lia.
  - change (2 ^ 52) with 4503599627370496; cbn; lia.
Defined.

Example nine_months_back :
  dateAdd (new Engines.tabulated) (Temporal.mkPlainDate 2023 3 23)
    (lunar_duration 0 (-9)) None
  = fromHijri (new Engines.tabulated) 1443 12 1.
Proof. reflexivity. Qed.



(** Without years and months the lunar step of dateAdd stays where it
    is, on a date the bridge round-trips. *)
Lemma dateAdd_without_months (this : t) (date : Temporal.PlainDate)
    (duration : Temporal.Duration) (options : option OverflowOptions)
    (h : HijriDate) :
  toHijri this date = Ok h ->
  fromHijri this (hy h) (hm h) (hd h) = Ok date ->
  1 <= hm h <= 12 ->
  hd h <= engine_daysInMonth (engine this) (hy h) (hm h) ->
  Temporal.years duration = 0 -> Temporal.months duration = 0 ->
  dateAdd this date duration options = apply_day_delta duration date.
Proof.
  intros Hto Hfrom Hmonth Hday Hy Hm.
  assert (Hn : normalize_months (hy h + Temporal.years duration)
                 (hm h + Temporal.months duration) = (hy h, hm h)).
  { rewrite normalize_months_closed_form, Hy, Hm.
    assert ((hm h + 0 - 1) / 12 = 0) by (apply Z.div_small; lia).
    assert ((hm h + 0 - 1) mod 12 = hm h - 1)
      by (rewrite Z.mod_small by lia; lia).
    f_equal; lia. }
  rewrite (dateAdd_unfold this date duration options h _ _ Hto Hn).
  rewrite Z.min_l by assumption. rewrite Hfrom. reflexivity.
Qed.

(** X11. Days and weeks are exact: on a date the bridge round-trips, with
    its lunar month in 1..12 and its lunar day within the month, adding
    weeks and days only returns the date days + 7 weeks later in the ISO
    calendar, whatever the lengths of the lunar months crossed, where that
    day is one a Temporal.PlainDate can hold; where it is not, dateAdd
    throws a RangeError. *)
Theorem dateAdd_days_are_exact (this : t) (date : Temporal.PlainDate)
    (options : option OverflowOptions) (h : HijriDate) (weeks days : Z) :
  toHijri this date = Ok h ->
  fromHijri this (hy h) (hm h) (hd h) = Ok date ->
  1 <= hm h <= 12 ->
  hd h <= engine_daysInMonth (engine this) (hy h) (hm h) ->
  let later := Temporal.epochDay date + (days + weeks * 7) in
  (Temporal.in_range later = true ->
   exists result,
     dateAdd this date (Temporal.mkDuration 0 0 weeks days) options = Ok result
     /\ Temporal.epochDay result = later)
  /\ (Temporal.in_range later = false ->
      days + weeks * 7 <> 0 ->
      is_range_error (dateAdd this date (Temporal.mkDuration 0 0 weeks days) options)
      = true).
Proof.
  intros Hto Hfrom Hmonth Hday later.
  rewrite (dateAdd_without_months this date
             (Temporal.mkDuration 0 0 weeks days) options h Hto Hfrom Hmonth Hday
             eq_refl eq_refl).
  unfold apply_day_delta, Temporal.add. cbn [Temporal.days Temporal.weeks].
  fold later. split.
  - intros Hrange. rewrite Hrange.
    destruct (Z.eqb_spec (days + weeks * 7) 0) as [Hzero | Hnonzero]; cbn [negb].
    + exists date. split; [reflexivity | subst later; lia].
    + exists (Temporal.addDays date (days + weeks * 7)). split; [reflexivity |].
      unfold Temporal.addDays. apply epochDay_ofEpochDay.
  - intros Hrange Hnonzero. rewrite Hrange.
    destruct (Z.eqb_spec (days + weeks * 7) 0) as [Hzero | _]; [contradiction |].
    reflexivity.
Qed.

Lemma dateAdd_days_are_exact_witness :
  toHijri (new Engines.tabulated) (Temporal.mkPlainDate 2023 3 23)
  = Ok (mkHijri 1444 9 1)
  /\ fromHijri (new Engines.tabulated) 1444 9 1
     = Ok (Temporal.mkPlainDate 2023 3 23)
  /\ Temporal.in_range (Temporal.epochDay (Temporal.mkPlainDate 2023 3 23) + (2 + 4 * 7))
     = true
  /\ exists result,
       dateAdd (new Engines.tabulated) (Temporal.mkPlainDate 2023 3 23)
         (Temporal.mkDuration 0 0 4 2) None = Ok result
       /\ Temporal.epochDay result
          = Temporal.epochDay (Temporal.mkPlainDate 2023 3 23) + (2 + 4 * 7).
Proof.
  split; [reflexivity | split; [reflexivity | split; [reflexivity |]]].
  apply (dateAdd_days_are_exact (new Engines.tabulated)
           (Temporal.mkPlainDate 2023 3 23) None (mkHijri 1444 9 1) 4 2).
  - reflexivity.
  - reflexivity.
  - cbn; lia.
  - cbn; lia.
  - reflexivity.
Defined.

(** A hundred million days on from 1 Ramadan 1444 no Temporal.PlainDate is
    left, although an engine without bounds would hold the day. *)
Example days_past_the_last_date :
  dateAdd (new Engines.computed) (Temporal.mkPlainDate 2023 3 23)
    (Temporal.mkDuration 0 0 0 100000000) None
  = Throw (RangeError "date outside of the supported range").
Proof. reflexivity. Qed.



(** Where the first addition clamps, the composition is lost: from day 30
    of month 8, one month and one month more end on day 29 of month 10, two
    months at once on day 30. *)
Example clamped_additions_do_not_compose :
  let this := new Engines.tabulated in
  let date := Temporal.mkPlainDate 2023 3 22 in
  toHijri this date = Ok (mkHijri 1444 8 30)
  /\ (middle <- dateAdd this date (lunar_duration 0 1) None ;;
      result <- dateAdd this middle (lunar_duration 0 1) None ;;
      toHijri this result) = Ok (mkHijri 1444 10 29)
  /\ (result <- dateAdd this date (lunar_duration 0 2) None ;;
      toHijri this result) = Ok (mkHijri 1444 10 30).
Proof. repeat split. Qed.

(** X13. The lunar fields of a sum: where the engine inverts itself on the
    Date it gives for the clamped target, and the Date toHijri builds from
    the UTC fields of that Date falls on the same UTC day (as with the host
    in UTC and an ISO year outside 0..99), the date dateAdd returns for
    years and months has the target year, a month between 1 and 12 and, as
    its day, the lesser of the origin's day and the length of the target
    month. *)
Theorem dateAdd_lands_on_the_target (this : t) (date : Temporal.PlainDate)
    (options : option OverflowOptions) (h : HijriDate) (years months y' m' : Z)
    (greg : JsDate.t) :
  toHijri this date = Ok h ->
  normalize_months (hy h + years) (hm h + months) = (y', m') ->
  let d' := Z.min (hd h) (engine_daysInMonth (engine this) y' m') in
  engine_toGregorian (engine this) y' m' d' = Some greg ->
  engine_toHijri (engine this) greg = Some (mkHijri y' m' d') ->
  rebuilt_on_its_day greg ->
  exists result,
    dateAdd this date (lunar_duration years months) options = Ok result
    /\ year this result = Ok y'
    /\ month this result = Ok m'
    /\ day this result = Ok d'
    /\ 1 <= m' <= 12
    /\ 12 * y' + m' = 12 * (hy h + years) + (hm h + months).
Proof.
  intros Hh Hn d' Hfrom Hto Hbuilt_on.
  destruct (toHijri_of_fromHijri this y' m' d' greg Hfrom Hto Hbuilt_on)
    as (result & Hbuilt & Hread).
  pose proof (normalize_months_spec _ _ _ _ Hn) as [Hrange Htotal].
  exists result.
  rewrite (dateAdd_unfold this date (lunar_duration years months) options h y' m'
             Hh Hn).
  fold d'. rewrite Hbuilt. unfold year, month, day. rewrite Hread.
  cbn [bind hy hm hd]. repeat split; try lia.
Qed.

Lemma dateAdd_lands_on_the_target_witness :
  toHijri (new Engines.tabulated) (Temporal.mkPlainDate 2023 3 22)
  = Ok (mkHijri 1444 8 30)
  /\ normalize_months (1444 + 0) (8 + 1) = (1444, 9)
  /\ exists result,
       dateAdd (new Engines.tabulated) (Temporal.mkPlainDate 2023 3 22)
         (lunar_duration 0 1) None = Ok result
       /\ year (new Engines.tabulated) result = Ok 1444
       /\ month (new Engines.tabulated) result = Ok 9
       /\ day (new Engines.tabulated) result
          = Ok (Z.min 30 (engine_daysInMonth Engines.tabulated 1444 9))
       /\ 1 <= 9 <= 12
       /\ 12 * 1444 + 9 = 12 * (1444 + 0) + (8 + 1).
Proof.
  split; [reflexivity | split; [reflexivity |]].
  apply (dateAdd_lands_on_the_target (new Engines.tabulated)
           (Temporal.mkPlainDate 2023 3 22) None (mkHijri 1444 8 30) 0 1 1444 9
           (JsDate.of_day 19467)).
  - reflexivity.
  - reflexivity.
  - reflexivity.
  - reflexivity.
  - reflexivity.
Defined.

(** X14. Subtracting what was added returns the origin: when adding
    years and months does not clamp, the calendar reads the target
    coordinate from the date returned, and the bridge round-trips the
    origin, whose lunar month is in 1..12, then adding the opposite
    duration to that date returns the origin. *)
Theorem dateAdd_is_undone_without_clamp (this : t) (date middle : Temporal.PlainDate)
    (options : option OverflowOptions) (h : HijriDate) (years months y' m' : Z) :
  toHijri this date = Ok h ->
  fromHijri this (hy h) (hm h) (hd h) = Ok date ->
  1 <= hm h <= 12 ->
  hd h <= engine_daysInMonth (engine this) (hy h) (hm h) ->
  normalize_months (hy h + years) (hm h + months) = (y', m') ->
  dateAdd this date (lunar_duration years months) options = Ok middle ->
  toHijri this middle = Ok (mkHijri y' m' (hd h)) ->
  dateAdd this middle (lunar_duration (- years) (- months)) options = Ok date.
Proof.
  intros Hh Hfrom Hmonth Hday Hn Hfirst Hmiddle.
  pose proof (normalize_months_spec _ _ _ _ Hn) as [_ Htotal].
  assert (Hback : normalize_months (y' + - years) (m' + - months) = (hy h, hm h)).
  { rewrite (normalize_months_same_total _ _ (hy h) (hm h)) by lia.
    rewrite normalize_months_closed_form.
    assert ((hm h - 1) / 12 = 0) by (apply Z.div_small; lia).
    assert ((hm h - 1) mod 12 = hm h - 1) by (apply Z.mod_small; lia).
    f_equal; lia. }
  rewrite (dateAdd_unfold this middle (lunar_duration (- years) (- months)) options
             _ _ _ Hmiddle Hback).
  cbn [hd]. rewrite Z.min_l by assumption. rewrite Hfrom. reflexivity.
Qed.

Lemma dateAdd_is_undone_without_clamp_witness :
  toHijri (new Engines.tabulated) (Temporal.mkPlainDate 2023 3 23)
  = Ok (mkHijri 1444 9 1)
  /\ dateAdd (new Engines.tabulated) (Temporal.mkPlainDate 2023 3 23)
       (lunar_duration 1 5) None
     = Ok (Temporal.mkPlainDate 2024 8 5)
  /\ toHijri (new Engines.tabulated) (Temporal.mkPlainDate 2024 8 5)
     = Ok (mkHijri 1446 2 1)
  /\ dateAdd (new Engines.tabulated) (Temporal.mkPlainDate 2024 8 5)
       (lunar_duration (- 1) (- 5)) None
     = Ok (Temporal.mkPlainDate 2023 3 23).
Proof.
  split; [reflexivity | split; [reflexivity | split; [reflexivity |]]].
  apply (dateAdd_is_undone_without_clamp (new Engines.tabulated)
           (Temporal.mkPlainDate 2023 3 23) (Temporal.mkPlainDate 2024 8 5) None
           (mkHijri 1444 9 1) 1 5 1446 2).
  - reflexivity.
  - reflexivity.
  - cbn; lia.
  - cbn; lia.
  - reflexivity.
  - reflexivity.
  - reflexivity.
Defined.

(** Where the addition clamps, the way back ends a day short: day 30 of
    month 8, one month on and one month back, is day 29 of month 8. *)
Example clamped_addition_is_not_undone :
  let this := new Engines.tabulated in
  (middle <- dateAdd this (Temporal.mkPlainDate 2023 3 22) (lunar_duration 0 1) None ;;
   dateAdd this middle (lunar_duration 0 (-1)) None)
  = Ok (Temporal.mkPlainDate 2023 3 21).
Proof. reflexivity. Qed.

(* ===================================================================== *)
(** ** Further properties of the difference *)
(* ===================================================================== *)

(** What dateUntil hands to the duration constructor, for coordinates
    whose later month is at least 1. *)
Lemma dateUntil_hands_lunar_difference (this : t) (one two : Temporal.PlainDate)
    (h1 h2 : HijriDate) (years months days : Z) :
  toHijri this one = Ok h1 ->
  toHijri this two = Ok h2 ->
  1 <= hm h2 ->
  lunar_difference (engine this) h1 h2 = (years, months, days) ->
  dateUntil this one two (largest unit_years)
  = Temporal.newDuration years months 0 days
  /\ dateUntil this one two (largest unit_months)
     = Temporal.newDuration 0 (years * 12 + months) 0 days.
Proof.
  intros H1 H2 Hmonth Hdiff.
  unfold dateUntil, largest; cbn [largestUnit].
  rewrite H1, H2; cbn [bind].
  rewrite borrow_is_preceding_month by lia.
  unfold lunar_difference in Hdiff.
  destruct (preceding_month (hy h2) (hm h2)) as [by_ bm]; cbn [fst snd].
  destruct (hd h2 - hd h1 <? 0);
    match type of Hdiff with
    | (let '(_, _) := if ?c then _ else _ in _) = _ => destruct c
    end; injection Hdiff as <- <- <-; split; reflexivity.
Qed.

(** X15. With largestUnit days, day or auto, with options that name no
    unit and without options, dateUntil is the ISO day difference and does
    not consult the engine; with weeks or week it splits that difference
    into weeks and fewer than seven days of the same sign.  Neither
    throws, in the engine's domain or outside. *)
Theorem dateUntil_in_days_needs_no_engine (this : t) (one two : Temporal.PlainDate) :
  let n := Temporal.epochDay two - Temporal.epochDay one in
  (forall options,
     options = None \/ options = Some (mkUntilOptions None)
     \/ options = largest unit_days \/ options = largest unit_day
     \/ options = largest unit_auto ->
     dateUntil this one two options = Ok (Temporal.mkDuration 0 0 0 n))
  /\ (forall options,
        options = largest unit_weeks \/ options = largest unit_week ->
        exists weeks days,
          dateUntil this one two options = Ok (Temporal.mkDuration 0 0 weeks days)
          /\ weeks * 7 + days = n
          /\ - 7 < days < 7
          /\ Temporal.mixed_signs 0 0 weeks days = false).
Proof.
  intros n. split.
  - intros options [-> | [-> | [-> | [-> | ->]]]]; reflexivity.
  - intros options Hweeks.
    exists (Z.quot n 7), (Z.rem n 7).
    split; [destruct Hweeks as [-> | ->]; reflexivity |].
    split; [Z.quot_rem_to_equations; lia |].
    split; [Z.quot_rem_to_equations; lia |].
    unfold Temporal.mixed_signs.
    destruct (Z.ltb_spec (Z.quot n 7) 0), (Z.ltb_spec (Z.rem n 7) 0),
      (Z.ltb_spec 0 (Z.quot n 7)), (Z.ltb_spec 0 (Z.rem n 7));
      try reflexivity; exfalso; Z.quot_rem_to_equations; lia.
Qed.

Example until_in_weeks :
  dateUntil (new Engines.tabulated) (Temporal.mkPlainDate 1800 1 1)
    (Temporal.mkPlainDate 1799 12 1) (largest unit_weeks)
  = Ok (Temporal.mkDuration 0 0 (-4) (-3)).
Proof. reflexivity. Qed.

(** X16. Adding what dateUntil measured in days or in weeks returns the
    second date: for dates of the ISO calendar, the first one
    round-tripped by the bridge with its lunar month in 1..12 and its lunar
    day within the month, dateAdd(one, dateUntil(one, two)) is two. *)
Theorem dateAdd_undoes_dateUntil_in_days (this : t) (one two : Temporal.PlainDate)
    (options : option OverflowOptions) (h : HijriDate) (unit : DateUnit) :
  Temporal.valid one = true ->
  Temporal.valid two = true ->
  toHijri this one = Ok h ->
  fromHijri this (hy h) (hm h) (hd h) = Ok one ->
  1 <= hm h <= 12 ->
  hd h <= engine_daysInMonth (engine this) (hy h) (hm h) ->
  unit = unit_days \/ unit = unit_weeks ->
  (duration <- dateUntil this one two (largest unit) ;;
   dateAdd this one duration options) = Ok two.
Proof.
  intros Hv1 Hv2 Hto Hfrom Hmonth Hday Hunit.
  set (n := Temporal.epochDay two - Temporal.epochDay one).
  assert (Hshift : forall duration,
            Temporal.years duration = 0 -> Temporal.months duration = 0 ->
            Temporal.days duration + Temporal.weeks duration * 7 = n ->
            dateAdd this one duration options = Ok two).
  { intros duration Hy Hm Hdelta.
    rewrite (dateAdd_without_months this one duration options h Hto Hfrom Hmonth
               Hday Hy Hm).
    unfold apply_day_delta. rewrite Hdelta.
    destruct (Z.eqb_spec n 0) as [Hzero | Hnonzero]; cbn [negb].
    - f_equal.
      rewrite <- (ofEpochDay_epochDay one Hv1), <- (ofEpochDay_epochDay two Hv2).
      f_equal. lia.
    - unfold Temporal.add, Temporal.addDays.
      replace (Temporal.epochDay one + n) with (Temporal.epochDay two) by lia.
      rewrite (valid_in_range two Hv2). f_equal.
      now apply ofEpochDay_epochDay. }
  destruct Hunit as [-> | ->]; unfold dateUntil, largest; cbn [largestUnit bind].
  - apply Hshift; try reflexivity. cbn. lia.
  - apply Hshift; try reflexivity.
    unfold Temporal.untilWeeks. cbn [Temporal.days Temporal.weeks]. fold n.
    Z.quot_rem_to_equations. lia.
Qed.

Lemma dateAdd_undoes_dateUntil_in_days_witness :
  toHijri (new Engines.tabulated) (Temporal.mkPlainDate 2023 3 23)
  = Ok (mkHijri 1444 9 1)
  /\ fromHijri (new Engines.tabulated) 1444 9 1
     = Ok (Temporal.mkPlainDate 2023 3 23)
  /\ (duration <- dateUntil (new Engines.tabulated) (Temporal.mkPlainDate 2023 3 23)
                    (Temporal.mkPlainDate 1800 1 1) (largest unit_weeks) ;;
      dateAdd (new Engines.tabulated) (Temporal.mkPlainDate 2023 3 23) duration None)
     = Ok (Temporal.mkPlainDate 1800 1 1).
Proof.
  split; [reflexivity | split; [reflexivity |]].
  apply (dateAdd_undoes_dateUntil_in_days (new Engines.tabulated)
           (Temporal.mkPlainDate 2023 3 23) (Temporal.mkPlainDate 1800 1 1) None
           (mkHijri 1444 9 1) unit_weeks).
  - reflexivity.
  - reflexivity.
  - reflexivity.
  - reflexivity.
  - cbn; lia.
  - cbn; lia.
  - right. reflexivity.
Defined.

(** X17. From a date of the engine's domain to itself dateUntil is the
    zero duration, whatever the largest unit. *)
Theorem dateUntil_to_itself_is_zero (this : t) (date : Temporal.PlainDate)
    (options : option UntilOptions) (h : HijriDate) :
  toHijri this date = Ok h ->
  dateUntil this date date options = Ok Temporal.zeroDuration.
Proof.
  intros Hh.
  assert (Hdays : Temporal.untilDays date date = Temporal.zeroDuration)
    by (unfold Temporal.untilDays; now rewrite Z.sub_diag).
  assert (Hweeks : Temporal.untilWeeks date date = Temporal.zeroDuration)
    by (unfold Temporal.untilWeeks; now rewrite Z.sub_diag).
  assert (Hlunar : forall k, (k - k <? 0) = false)
    by (intros k; apply Z.ltb_ge; lia).
  destruct options as [[[unit |]] |]; [destruct unit | |];
    unfold dateUntil; cbn [largestUnit];
    rewrite ?Hh; cbn [bind]; rewrite ?Hlunar, ?Hdays, ?Hweeks;
    rewrite ?Z.sub_diag; reflexivity.
Qed.

Lemma dateUntil_to_itself_is_zero_witness :
  toHijri (new Engines.tabulated) (Temporal.mkPlainDate 2023 3 23)
  = Ok (mkHijri 1444 9 1)
  /\ dateUntil (new Engines.tabulated) (Temporal.mkPlainDate 2023 3 23)
       (Temporal.mkPlainDate 2023 3 23) (largest unit_years)
     = Ok Temporal.zeroDuration.
Proof.
  split; [reflexivity |].
  apply (dateUntil_to_itself_is_zero (new Engines.tabulated)
           (Temporal.mkPlainDate 2023 3 23) (largest unit_years)
           (mkHijri 1444 9 1)).
  reflexivity.
Defined.

(** X18. Counting forwards gives a balanced duration: between coordinates
    of the data model (months in 1..12, days from 1 to 30, month lengths 29
    or 30), the first not after the second, dateUntil with largestUnit
    years returns years >= 0, months from 0 to 11 and days from 0 to 29,
    and with largestUnit months the same days and 12 years + months
    months. *)
Theorem dateUntil_forwards_is_balanced (this : t) (one two : Temporal.PlainDate)
    (h1 h2 : HijriDate) :
  toHijri this one = Ok h1 ->
  toHijri this two = Ok h2 ->
  not_after h1 h2 ->
  1 <= hm h1 <= 12 -> 1 <= hm h2 <= 12 ->
  1 <= hd h1 <= 30 -> 1 <= hd h2 <= 30 ->
  (forall y m, 29 <= engine_daysInMonth (engine this) y m <= 30) ->
  exists years months days,
    dateUntil this one two (largest unit_years)
    = Ok (Temporal.mkDuration years months 0 days)
    /\ dateUntil this one two (largest unit_months)
       = Ok (Temporal.mkDuration 0 (years * 12 + months) 0 days)
    /\ 0 <= years /\ 0 <= months <= 11 /\ 0 <= days <= 29.
Proof.
  intros H1 H2 Horder Hm1 Hm2 Hd1 Hd2 Hlen.
  destruct (lunar_difference (engine this) h1 h2) as [[years months] days] eqn:Hdiff.
  exists years, months, days.
  destruct (dateUntil_hands_lunar_difference this one two h1 h2 years months days
              H1 H2 ltac:(lia) Hdiff) as [Hyears Hmonths].
  destruct (forward_difference_is_returned (engine this) h1 h2 years months days
              Horder Hm1 Hm2 Hd1 ltac:(lia) ltac:(intros; apply Hlen) Hdiff)
    as (Hy & Hm & Hd & Hsigns & Hsigns').
  rewrite Hyears, Hmonths. unfold Temporal.newDuration. rewrite Hsigns, Hsigns'.
  split; [reflexivity |]. split; [reflexivity |]. split; [exact Hy |].
  unfold lunar_difference in Hdiff.
  destruct (preceding_month (hy h2) (hm h2)) as [by_ bm].
  pose proof (Hlen by_ bm).
  destruct (Z.ltb_spec (hd h2 - hd h1) 0).
  - destruct (Z.ltb_spec (hm h2 - hm h1 - 1) 0);
      injection Hdiff as <- <- <-; lia.
  - destruct (Z.ltb_spec (hm h2 - hm h1) 0);
      injection Hdiff as <- <- <-; lia.
Qed.

Lemma dateUntil_forwards_is_balanced_witness :
  toHijri (new Engines.tabulated) (Temporal.mkPlainDate 2023 3 25)
  = Ok (mkHijri 1444 9 3)
  /\ toHijri (new Engines.tabulated) (Temporal.mkPlainDate 2024 3 11)
     = Ok (mkHijri 1445 9 1)
  /\ not_after (mkHijri 1444 9 3) (mkHijri 1445 9 1)
  /\ exists years months days,
       dateUntil (new Engines.tabulated) (Temporal.mkPlainDate 2023 3 25)
         (Temporal.mkPlainDate 2024 3 11) (largest unit_years)
       = Ok (Temporal.mkDuration years months 0 days)
       /\ dateUntil (new Engines.tabulated) (Temporal.mkPlainDate 2023 3 25)
            (Temporal.mkPlainDate 2024 3 11) (largest unit_months)
          = Ok (Temporal.mkDuration 0 (years * 12 + months) 0 days)
       /\ 0 <= years /\ 0 <= months <= 11 /\ 0 <= days <= 29.
Proof.
  split; [reflexivity | split; [reflexivity | split]].
  - left. cbn; lia.
  - apply (dateUntil_forwards_is_balanced (new Engines.tabulated)
             (Temporal.mkPlainDate 2023 3 25) (Temporal.mkPlainDate 2024 3 11)
             (mkHijri 1444 9 3) (mkHijri 1445 9 1)).
    + reflexivity.
    + reflexivity.
    + left. cbn; lia.
    + cbn; lia.
    + cbn; lia.
    + cbn; lia.
    + cbn; lia.
    + intros y m. cbn. destruct (alternating_29_or_30 m); lia.
Defined.

(** X19. With largestUnit years or months dateUntil reads both lunar
    coordinates, the first date's first: it throws the RangeError of
    toHijri for the first date when the engine is absent there, and the
    one for the second date when the engine answers for the first only. *)
Theorem dateUntil_throws_outside_domain (this : t) (one two : Temporal.PlainDate)
    (unit : DateUnit) :
  unit = unit_years \/ unit = unit_year \/ unit = unit_months \/ unit = unit_month ->
  (toHijri this one = Throw (RangeError (toHijri_message this one)) ->
   dateUntil this one two (largest unit)
   = Throw (RangeError (toHijri_message this one)))
  /\ (forall h1,
        toHijri this one = Ok h1 ->
        toHijri this two = Throw (RangeError (toHijri_message this two)) ->
        dateUntil this one two (largest unit)
        = Throw (RangeError (toHijri_message this two))).
Proof.
  intros [-> | [-> | [-> | ->]]]; unfold dateUntil, largest; cbn [largestUnit];
    (split; [intros -> | intros h1 -> ->]; reflexivity).
Qed.

Lemma dateUntil_throws_outside_domain_witness :
  toHijri (new Engines.tabulated) (Temporal.mkPlainDate 2023 3 23)
  = Ok (mkHijri 1444 9 1)
  /\ dateUntil (new Engines.tabulated) (Temporal.mkPlainDate 2023 3 23)
       (Temporal.mkPlainDate 1800 1 1) (largest unit_months)
     = Throw (RangeError
         "Date 1800-01-01 is out of range for the hijri-table calendar").
Proof.
  split; [reflexivity |].
  apply (dateUntil_throws_outside_domain (new Engines.tabulated)
           (Temporal.mkPlainDate 2023 3 23) (Temporal.mkPlainDate 1800 1 1)
           unit_months) with (h1 := mkHijri 1444 9 1).
  - right. right. left. reflexivity.
  - reflexivity.
  - reflexivity.
Defined.

(** X20. Counting backwards: between coordinates of the data model, the
    second before the first, the years of the lunar difference are
    negative while its months (0 to 11) and days (0 to 29) are not; so
    dateUntil with largestUnit years returns, a negative number of whole
    years, only when months and days are both zero, and throws the
    RangeError of the duration constructor otherwise. *)
Theorem dateUntil_backwards (this : t) (one two : Temporal.PlainDate)
    (h1 h2 : HijriDate) :
  toHijri this one = Ok h1 ->
  toHijri this two = Ok h2 ->
  ~ not_after h1 h2 ->
  1 <= hm h1 <= 12 -> 1 <= hm h2 <= 12 ->
  1 <= hd h1 <= 30 -> 1 <= hd h2 <= 30 ->
  (forall y m, 29 <= engine_daysInMonth (engine this) y m <= 30) ->
  exists years months days,
    lunar_difference (engine this) h1 h2 = (years, months, days)
    /\ years < 0 /\ 0 <= months <= 11 /\ 0 <= days <= 29
    /\ (months = 0 /\ days = 0 ->
        dateUntil this one two (largest unit_years)
        = Ok (Temporal.mkDuration years 0 0 0))
    /\ (0 < months \/ 0 < days ->
        dateUntil this one two (largest unit_years)
        = Throw (RangeError "mixed-sign values not allowed as duration fields")).
Proof.
  intros H1 H2 Horder Hm1 Hm2 Hd1 Hd2 Hlen.
  destruct (lunar_difference (engine this) h1 h2) as [[years months] days] eqn:Hdiff.
  exists years, months, days.
  destruct (dateUntil_hands_lunar_difference this one two h1 h2 years months days
              H1 H2 ltac:(lia) Hdiff) as [Hyears _].
  assert (Hsigns : years < 0 /\ 0 <= months <= 11 /\ 0 <= days <= 29).
  { unfold lunar_difference, not_after in *.
    destruct (preceding_month (hy h2) (hm h2)) as [by_ bm].
    pose proof (Hlen by_ bm).
    destruct (Z.ltb_spec (hd h2 - hd h1) 0).
    - destruct (Z.ltb_spec (hm h2 - hm h1 - 1) 0);
        injection Hdiff as <- <- <-; lia.
    - destruct (Z.ltb_spec (hm h2 - hm h1) 0);
        injection Hdiff as <- <- <-; lia. }
  destruct Hsigns as (Hy & Hm & Hd).
  split; [reflexivity |]. split; [exact Hy |]. split; [exact Hm |].
  split; [exact Hd |].
  rewrite Hyears. unfold Temporal.newDuration, Temporal.mixed_signs.
  split.
  - intros [-> ->].
    destruct (Z.ltb_spec years 0); [| lia].
    destruct (Z.ltb_spec 0 years); [lia |]. reflexivity.
  - intros Hpositive.
    destruct (Z.ltb_spec years 0); [| lia]. cbn [orb andb].
    destruct (Z.ltb_spec 0 years); [lia |].
    destruct (Z.ltb_spec 0 months), (Z.ltb_spec 0 days); try lia;
      cbn; reflexivity.
Qed.

Lemma dateUntil_backwards_witness :
  toHijri (new Engines.tabulated) (Temporal.mkPlainDate 2023 4 21)
  = Ok (mkHijri 1444 10 1)
  /\ toHijri (new Engines.tabulated) (Temporal.mkPlainDate 2023 3 23)
     = Ok (mkHijri 1444 9 1)
  /\ ~ not_after (mkHijri 1444 10 1) (mkHijri 1444 9 1)
  /\ exists years months days,
       lunar_difference Engines.tabulated (mkHijri 1444 10 1) (mkHijri 1444 9 1)
       = (years, months, days)
       /\ years < 0 /\ 0 <= months <= 11 /\ 0 <= days <= 29
       /\ (months = 0 /\ days = 0 ->
           dateUntil (new Engines.tabulated) (Temporal.mkPlainDate 2023 4 21)
             (Temporal.mkPlainDate 2023 3 23) (largest unit_years)
           = Ok (Temporal.mkDuration years 0 0 0))
       /\ (0 < months \/ 0 < days ->
           dateUntil (new Engines.tabulated) (Temporal.mkPlainDate 2023 4 21)
             (Temporal.mkPlainDate 2023 3 23) (largest unit_years)
           = Throw (RangeError "mixed-sign values not allowed as duration fields")).
Proof.
  assert (Horder : ~ not_after (mkHijri 1444 10 1) (mkHijri 1444 9 1))
    by (unfold not_after; cbn; lia).
  split; [reflexivity | split; [reflexivity | split; [exact Horder |]]].
  apply (dateUntil_backwards (new Engines.tabulated)
           (Temporal.mkPlainDate 2023 4 21) (Temporal.mkPlainDate 2023 3 23)
           (mkHijri 1444 10 1) (mkHijri 1444 9 1)).
  - reflexivity.
  - reflexivity.
  - exact Horder.
  - cbn; lia.
  - cbn; lia.
  - cbn; lia.
  - cbn; lia.
  - intros y m. cbn. destruct (alternating_29_or_30 m); lia.
Defined.

Example a_whole_year_back :
  dateUntil (new Engines.tabulated) (Temporal.mkPlainDate 2024 3 11)
    (Temporal.mkPlainDate 2023 3 23) (largest unit_years)
  = Ok (Temporal.mkDuration (-1) 0 0 0).
Proof. reflexivity. Qed.


(* ===================================================================== *)
(** ** Construction from fields, identity and merged fields *)
(* ===================================================================== *)

(** X21. yearMonthFromFields converts day 1 of the lunar month and keeps
    the ISO year and month of that date; monthDayFromFields without a year
    converts the month and day in the lunar year 1444.  Each throws when
    the engine is absent for that coordinate, with the RangeError that
    names it (day 1, year 1444), and neither reads its options. *)
Theorem fromFields_fill_in_day_and_year (this : t) (y m d : Z)
    (options options' : option OverflowOptions) :
  yearMonthFromFields this y m options
  = (date <- dateFromFields this (mkHijri y m 1) options' ;;
     Ok (Temporal.year date, Temporal.month date))
  /\ monthDayFromFields this m d None options
     = (date <- dateFromFields this (mkHijri 1444 m d) options' ;;
        Ok (Temporal.month date, Temporal.day date))
  /\ monthDayFromFields this m d None options
     = monthDayFromFields this m d (Some 1444) options'
  /\ (engine_toGregorian (engine this) y m 1 = None ->
      yearMonthFromFields this y m options
      = Throw (RangeError (fromHijri_message this y m 1)))
  /\ (engine_toGregorian (engine this) 1444 m d = None ->
      monthDayFromFields this m d None options
      = Throw (RangeError (fromHijri_message this 1444 m d))).
Proof.
  unfold yearMonthFromFields, monthDayFromFields, dateFromFields, fromHijri.
  cbn [hy hm hd].
  repeat split; intros Habs; rewrite Habs; reflexivity.
Qed.

Example monthDay_without_year :
  monthDayFromFields (new Engines.tabulated) 9 1 None None = Ok (3, 23)
  /\ monthDayFromFields (new Engines.tabulated) 9 30 None None
     = Throw (RangeError
         "Hijri date 1444/9/30 is out of range for the hijri-table calendar")
  /\ yearMonthFromFields (new Engines.tabulated) 1444 9 None = Ok (2023, 3)
  /\ yearMonthFromFields (new Engines.tabulated) 1444 10 None = Ok (2023, 4).
Proof. repeat split. Qed.

(** The identity of a calendar is "hijri-" followed by the identity
    of its engine, it is what toString returns, and two calendars have the
    same identity exactly when their engines have. *)
Lemma calendar_identity_follows_engine (e1 e2 : CalendarEngine) :
  HijriCalendar.toString (new e1) = "hijri-" ++ engine_id e1
  /\ (id (new e1) = id (new e2) <-> engine_id e1 = engine_id e2).
Proof.
  split; [reflexivity |]. cbn. split.
  - intros Hsame. now injection Hsame.
  - intros ->. reflexivity.
Qed.

Section Objects.

Variable V : Type.

Implicit Types (o target source : JsObject.t V) (k : string) (v : V).

Lemma get_none_iff o k : JsObject.get o k = None <-> ~ In k (JsObject.keys o).
Proof.
  induction o as [| [k' v'] rest IH]; cbn.
  - tauto.
  - destruct (String.eqb_spec k' k) as [-> | Hne].
    + split; [discriminate | intros Hnot; exfalso; apply Hnot; now left].
    + rewrite IH. tauto.
Qed.

Lemma in_keys_iff o k : In k (JsObject.keys o) <-> JsObject.get o k <> None.
Proof.
  induction o as [| [k' v'] rest IH]; cbn.
  - intuition congruence.
  - destruct (String.eqb_spec k' k) as [-> | Hne].
    + intuition congruence.
    + rewrite <- IH. intuition congruence.
Qed.

Lemma get_app o1 o2 k :
  JsObject.get (o1 ++ o2)%list k
  = match JsObject.get o1 k with
    | Some v => Some v
    | None => JsObject.get o2 k
    end.
Proof.
  induction o1 as [| [k' v'] rest IH]; cbn.
  - reflexivity.
  - destruct (String.eqb k' k); [reflexivity | exact IH].
Qed.

(** With one value per name, the last property of a name is the first. *)
Lemma get_rev o k :
  NoDup (JsObject.keys o) -> JsObject.get (rev o) k = JsObject.get o k.
Proof.
  induction o as [| [k' v'] rest IH]; intros Hnodup.
  - reflexivity.
  - cbn in Hnodup. apply NoDup_cons_iff in Hnodup. destruct Hnodup as [Hfresh Hrest].
    cbn [rev]. rewrite get_app, (IH Hrest). cbn.
    destruct (String.eqb_spec k' k) as [-> | Hne].
    + apply get_none_iff in Hfresh. now rewrite Hfresh.
    + now destruct (JsObject.get rest k).
Qed.

Lemma get_set o k v k' :
  JsObject.get (JsObject.set o k v) k'
  = if String.eqb k k' then Some v else JsObject.get o k'.
Proof.
  induction o as [| [k0 v0] rest IH]; cbn.
  - reflexivity.
  - destruct (String.eqb_spec k0 k) as [-> | Hne]; cbn.
    + now destruct (String.eqb k k').
    + destruct (String.eqb_spec k0 k') as [-> | Hne'].
      * destruct (String.eqb_spec k k'); [congruence | reflexivity].
      * exact IH.
Qed.

Lemma in_keys_set o k v x :
  In x (JsObject.keys (JsObject.set o k v)) <-> x = k \/ In x (JsObject.keys o).
Proof.
  induction o as [| [k0 v0] rest IH]; cbn.
  - intuition congruence.
  - destruct (String.eqb_spec k0 k) as [-> | Hne]; cbn.
    + intuition congruence.
    + rewrite IH. tauto.
Qed.

Lemma set_keeps_one_value_per_name o k v :
  NoDup (JsObject.keys o) -> NoDup (JsObject.keys (JsObject.set o k v)).
Proof.
  induction o as [| [k0 v0] rest IH]; cbn; intros Hnodup.
  - repeat constructor. intros [].
  - apply NoDup_cons_iff in Hnodup. destruct Hnodup as [Hfresh Hrest].
    destruct (String.eqb_spec k0 k) as [-> | Hne]; cbn.
    + now constructor.
    + constructor; [| now apply IH].
      intros Hin. apply (in_keys_set rest k v k0) in Hin.
      destruct Hin as [-> | Hin]; [congruence | contradiction].
Qed.

Lemma spread_spec source : forall target k,
  JsObject.get (JsObject.spread target source) k
  = match JsObject.get (rev source) k with
    | Some v => Some v
    | None => JsObject.get target k
    end.
Proof.
  induction source as [| [k0 v0] rest IH]; intros target k.
  - reflexivity.
  - unfold JsObject.spread in *. cbn [fold_left fst snd rev].
    rewrite IH, get_app, get_set. cbn.
    destruct (JsObject.get (rev rest) k); [reflexivity |].
    now destruct (String.eqb k0 k).
Qed.

Lemma spread_keeps_one_value_per_name source : forall target,
  NoDup (JsObject.keys target) ->
  NoDup (JsObject.keys (JsObject.spread target source)).
Proof.
  induction source as [| [k0 v0] rest IH]; intros target Hnodup.
  - exact Hnodup.
  - unfold JsObject.spread in *. cbn [fold_left fst snd].
    apply IH. now apply set_keeps_one_value_per_name.
Qed.

(** X22. mergeFields returns an object in which every name of either
    argument has one value, that of additionalFields where it has the
    name and that of fields otherwise, and no other name; it never
    throws. *)
Theorem mergeFields_later_fields_override (this : t)
    (fields additionalFields : JsObject.t V) :
  NoDup (JsObject.keys fields) ->
  NoDup (JsObject.keys additionalFields) ->
  exists merged,
    mergeFields this fields additionalFields = Ok merged
    /\ (forall k,
          JsObject.get merged k
          = match JsObject.get additionalFields k with
            | Some v => Some v
            | None => JsObject.get fields k
            end)
    /\ NoDup (JsObject.keys merged)
    /\ (forall k,
          In k (JsObject.keys merged)
          <-> In k (JsObject.keys fields) \/ In k (JsObject.keys additionalFields)).
Proof.
  intros Hfields Hadditional.
  exists (JsObject.spread (JsObject.spread [] fields) additionalFields).
  assert (Hget : forall k,
            JsObject.get (JsObject.spread (JsObject.spread [] fields) additionalFields) k
            = match JsObject.get additionalFields k with
              | Some v => Some v
              | None => JsObject.get fields k
              end).
  { intros k. rewrite !spread_spec, !get_rev by assumption. cbn.
    now destruct (JsObject.get fields k). }
  split; [reflexivity |]. split; [exact Hget |]. split.
  - apply spread_keeps_one_value_per_name, spread_keeps_one_value_per_name.
    constructor.
  - intros k. rewrite !in_keys_iff, Hget.
    destruct (JsObject.get additionalFields k), (JsObject.get fields k);
      intuition congruence.
Qed.

End Objects.

Lemma mergeFields_later_fields_override_witness :
  NoDup (JsObject.keys [("year", 1444); ("month", 9)])
  /\ NoDup (JsObject.keys [("month", 10); ("day", 1)])
  /\ exists merged,
       mergeFields (new Engines.tabulated) [("year", 1444); ("month", 9)]
         [("month", 10); ("day", 1)] = Ok merged
       /\ (forall k,
             JsObject.get merged k
             = match JsObject.get [("month", 10); ("day", 1)] k with
               | Some v => Some v
               | None => JsObject.get [("year", 1444); ("month", 9)] k
               end)
       /\ NoDup (JsObject.keys merged)
       /\ (forall k,
             In k (JsObject.keys merged)
             <-> In k (JsObject.keys [("year", 1444); ("month", 9)])
                 \/ In k (JsObject.keys [("month", 10); ("day", 1)])).
Proof.
  assert (Hfields : NoDup (JsObject.keys [("year", 1444); ("month", 9)]))
    by (repeat constructor; cbn; intuition discriminate).
  assert (Hadditional : NoDup (JsObject.keys [("month", 10); ("day", 1)]))
    by (repeat constructor; cbn; intuition discriminate).
  split; [exact Hfields | split; [exact Hadditional |]].
  exact (mergeFields_later_fields_override Z (new Engines.tabulated)
           [("year", 1444); ("month", 9)] [("month", 10); ("day", 1)]
           Hfields Hadditional).
Defined.

Example merged_fields :
  mergeFields (new Engines.tabulated) [("year", 1444); ("month", 9)]
    [("month", 10); ("day", 1)]
  = Ok [("year", 1444); ("month", 10); ("day", 1)].
Proof. reflexivity. Qed.
